(** * OGraf template editor: the template model, the code generator and the
      runtime of the generated graphic

    A shallow embedding of [OGrafTemplate] (the model class with its presets,
    mutators, style generator and web-component generator) and of the
    [...Graphic] custom element whose source the generator emits, followed by
    the properties of the written specification stated against them.

    Conventions of the embedding.
    - A JavaScript string is a [string]: the bytes of its UTF-8 text.  The
      regular expressions of the program only name ASCII classes, so a byte
      above 127 is never a letter, a digit or a brace for them.  Case mapping
      ([toLowerCase], [toUpperCase]) is modelled on the ASCII letters.
    - A JavaScript number is an integer ([Z]), printed in decimal as
      JavaScript prints the integers it holds exactly (below 10^21).  Every
      number the program itself writes is an integer literal or
      [Date.now()], and the program only prints and compares the numbers of
      an element.
    - A plain object is an association list in property order.  Keys that are
      array indices (which JavaScript enumerates first) are not used by this
      program.
    - An [async] method is split at its [await]s: the part that runs inside
      the call, and the continuations that the event loop runs later. *)

From Stdlib Require Import ZArith List String Ascii Bool Lia DecimalString
  Permutation.
Set Warnings "-register-all".
Import ListNotations.
Open Scope string_scope.
Open Scope Z_scope.

(* ================================================================== *)
(** * Part I.  The program                                             *)
(* ================================================================== *)

(** ** Characters and strings *)

Module Text.

Definition code (c : ascii) : nat := nat_of_ascii c.

Definition in_range (lo hi : nat) (c : ascii) : bool :=
  (Nat.leb lo (code c) && Nat.leb (code c) hi)%bool.

(** [[a-z]], [[A-Z]], [[0-9]] and [\w] of a regular expression without the
    unicode flag. *)
Definition is_lower : ascii -> bool := in_range 97 122.
Definition is_upper : ascii -> bool := in_range 65 90.
Definition is_digit : ascii -> bool := in_range 48 57.
Definition is_word (c : ascii) : bool :=
  (is_lower c || is_upper c || is_digit c || Ascii.eqb c "_")%bool.

Definition lower_char (c : ascii) : ascii :=
  if is_upper c then ascii_of_nat (code c + 32) else c.
Definition upper_char (c : ascii) : ascii :=
  if is_lower c then ascii_of_nat (code c - 32) else c.

Fixpoint toLowerCase (s : string) : string :=
  match s with
  | EmptyString => EmptyString
  | String c t => String (lower_char c) (toLowerCase t)
  end.

Fixpoint toUpperCase (s : string) : string :=
  match s with
  | EmptyString => EmptyString
  | String c t => String (upper_char c) (toUpperCase t)
  end.

(** The double quote, which a string literal of this file never holds. *)
Definition dq : string := String (ascii_of_nat 34) EmptyString.

(** The line feed. *)
Definition nl : string := String (ascii_of_nat 10) EmptyString.

(** [Array.prototype.join] on strings. *)
Definition join (sep : string) (l : list string) : string := String.concat sep l.

(** Decimal text of an integer: [String(n)] for an integer number. *)
Definition of_Z (z : Z) : string := NilEmpty.string_of_int (Z.to_int z).

(** White space that [String.prototype.trim] strips, among the ASCII
    characters: tab, line feed, vertical tab, form feed, carriage return and
    space.  The one text the program trims starts with a line feed before
    [class] and ends with a line feed and spaces behind a parenthesis and a
    semicolon. *)
Definition is_space (c : ascii) : bool :=
  (in_range 9 13 c || Ascii.eqb c " ")%bool.

Fixpoint trimStart (s : string) : string :=
  match s with
  | EmptyString => EmptyString
  | String c t => if is_space c then trimStart t else s
  end.

(** Strips trailing white space: a character is dropped when it is white
    space and nothing but white space follows it. *)
Fixpoint trimEnd (s : string) : string :=
  match s with
  | EmptyString => EmptyString
  | String c t =>
      match trimEnd t with
      | EmptyString => if is_space c then EmptyString else String c EmptyString
      | r => String c r
      end
  end.

Definition trim (s : string) : string := trimEnd (trimStart s).

End Text.

Import Text.

(** ** [kebabCase] and [toCamelCase] *)

(** [str.replace(/([a-z0-9]|(?=[A-Z]))([A-Z])/g, '$1-$2')].  At each position
    the first alternative is tried first: a lower-case letter or digit
    followed by an upper-case letter is a match of two characters.  Otherwise
    the second alternative, an empty group before an upper-case letter,
    matches that letter alone.  After a match the scan goes on behind it. *)
Fixpoint kebab_replace (s : string) : string :=
  match s with
  | EmptyString => EmptyString
  | String c t =>
      match t with
      | String d t' =>
          if ((is_lower c || is_digit c) && is_upper d)%bool
          then String c (String "-" (String d (kebab_replace t')))
          else if is_upper c
               then String "-" (String c (kebab_replace t))
               else String c (kebab_replace t)
      | EmptyString =>
          if is_upper c then String "-" (String c EmptyString)
          else String c EmptyString
      end
  end.

Definition kebabCase (str : string) : string := toLowerCase (kebab_replace str).

(** [str.replace(/-([a-z])/g, (g) => g[1].toUpperCase())]. *)
Fixpoint camel_hyphens (s : string) : string :=
  match s with
  | EmptyString => EmptyString
  | String c t =>
      match t with
      | String d t' =>
          if (Ascii.eqb c "-" && is_lower d)%bool
          then String (upper_char d) (camel_hyphens t')
          else String c (camel_hyphens t)
      | EmptyString => String c EmptyString
      end
  end.

(** [.replace(/^[a-z]/, (g) => g.toUpperCase())]. *)
Definition camel_first (s : string) : string :=
  match s with
  | String c t => if is_lower c then String (upper_char c) t else s
  | EmptyString => EmptyString
  end.

Definition toCamelCase (str : string) : string := camel_first (camel_hyphens str).

(** ** JavaScript values *)

Inductive jsval : Type :=
| VUndef
| VNull
| VBool (b : bool)
| VNum (n : Z)
| VStr (s : string)
| VArr (items : list jsval)
| VObj (fields : list (string * jsval)).

(** A plain object: its own properties, in property order. *)
Definition obj : Type := list (string * jsval).

(** Own property lookup. *)
Fixpoint obj_get (k : string) (o : obj) : option jsval :=
  match o with
  | [] => None
  | (k', v) :: r => if String.eqb k k' then Some v else obj_get k r
  end.

(** [o[k] = v]: an existing property keeps its place, a new one goes last. *)
Fixpoint obj_set (k : string) (v : jsval) (o : obj) : obj :=
  match o with
  | [] => [(k, v)]
  | (k', v') :: r =>
      if String.eqb k k' then (k', v) :: r else (k', v') :: obj_set k v r
  end.


(** [Object.assign(target, source)], also the spread [{...target, ...source}]
    of an object literal. *)
Definition obj_assign (target source : obj) : obj :=
  fold_left (fun t p => obj_set (fst p) (snd p) t) source target.

Definition keys (o : obj) : list string := map fst o.

(** Property read [o.k] for a name that [Object.prototype] does not define:
    the own property, or [undefined]. *)
Definition field (k : string) (o : obj) : jsval :=
  match obj_get k o with Some x => x | None => VUndef end.

(** The same read on any value; a value that is not a plain object has none
    of the properties this program reads. *)
Definition prop (k : string) (v : jsval) : jsval :=
  match v with
  | VObj o => field k o
  | _ => VUndef
  end.

(** [ToBoolean]. *)
Definition truthy (v : jsval) : bool :=
  match v with
  | VUndef | VNull => false
  | VBool b => b
  | VNum n => negb (n =? 0)
  | VStr s => negb (String.eqb s "")
  | VArr _ | VObj _ => true
  end.

(** [a === b] on primitive values.  Objects and arrays are compared by
    identity in JavaScript, which a value does not carry: two of them are
    never reported equal here. *)
Definition strict_eq (a b : jsval) : bool :=
  match a, b with
  | VUndef, VUndef => true
  | VNull, VNull => true
  | VBool x, VBool y => Bool.eqb x y
  | VNum x, VNum y => x =? y
  | VStr x, VStr y => String.eqb x y
  | _, _ => false
  end.

(** [String(v)], the conversion a template literal applies to [${v}]. *)
Fixpoint to_string (v : jsval) : string :=
  match v with
  | VUndef => "undefined"
  | VNull => "null"
  | VBool b => if b then "true" else "false"
  | VNum n => of_Z n
  | VStr s => s
  | VArr l =>
      join "," (map (fun x => match x with
                              | VUndef | VNull => ""
                              | _ => to_string x
                              end) l)
  | VObj _ => "[object Object]"
  end.

(** [Object.entries(v)]: the properties of a plain object, the indexed items
    of an array, the indexed characters of a string, and nothing for other
    primitives. *)
Fixpoint indexed (i : Z) (l : list jsval) : obj :=
  match l with
  | [] => []
  | v :: r => (of_Z i, v) :: indexed (i + 1) r
  end.

Fixpoint chars (s : string) : list jsval :=
  match s with
  | EmptyString => []
  | String c t => VStr (String c EmptyString) :: chars t
  end.

Definition entries (v : jsval) : obj :=
  match v with
  | VObj o => o
  | VArr l => indexed 0 l
  | VStr s => indexed 0 (chars s)
  | _ => []
  end.

(** [a || b]. *)
Definition or_else (a b : jsval) : jsval := if truthy a then a else b.

(** ** [JSON.stringify] *)

Definition hex_digit (n : nat) : ascii :=
  if Nat.ltb n 10 then ascii_of_nat (48 + n) else ascii_of_nat (87 + n).

(** One character inside a JSON string ([QuoteJSONString]). *)
Definition json_char (c : ascii) : string :=
  let n := code c in
  if Nat.eqb n 34 then String "\" dq
  else if Nat.eqb n 92 then "\\"
  else if Nat.eqb n 8 then "\b"
  else if Nat.eqb n 9 then "\t"
  else if Nat.eqb n 10 then "\n"
  else if Nat.eqb n 12 then "\f"
  else if Nat.eqb n 13 then "\r"
  else if Nat.ltb n 32
       then "\u00" ++ String (hex_digit (Nat.div n 16))
                         (String (hex_digit (Nat.modulo n 16)) EmptyString)
       else String c EmptyString.

Fixpoint json_chars (s : string) : string :=
  match s with
  | EmptyString => EmptyString
  | String c t => json_char c ++ json_chars t
  end.

Definition json_quote (s : string) : string := dq ++ json_chars s ++ dq.

(** [JSON.stringify(v)] without indentation; [None] is [undefined].  A
    property whose value is [undefined] is left out of an object, and an
    [undefined] item of an array is written [null]. *)
Fixpoint json (v : jsval) : option string :=
  match v with
  | VUndef => None
  | VNull => Some "null"
  | VBool b => Some (if b then "true" else "false")
  | VNum n => Some (of_Z n)
  | VStr s => Some (json_quote s)
  | VArr l =>
      Some ("[" ++ join "," (map (fun x => match json x with
                                           | Some t => t
                                           | None => "null"
                                           end) l) ++ "]")
  | VObj fs =>
      Some ("{" ++ join ","
              ((fix members (fs : list (string * jsval)) : list string :=
                  match fs with
                  | [] => []
                  | (k, x) :: r =>
                      match json x with
                      | Some t => (json_quote k ++ ":" ++ t) :: members r
                      | None => members r
                      end
                  end) fs) ++ "}")
  end.

(** [JSON.stringify] of a value that is not [undefined]. *)
Definition stringify (v : jsval) : string :=
  match json v with Some t => t | None => "undefined" end.

(** ** The template model: class [OGrafTemplate] *)

Module OGrafTemplate.

Record Author : Type := { author_name : string; author_email : string }.

Record Schema : Type := { schema_type : string; properties : obj }.

(** The manifest.  [stepCount] and [customActions] are absent until a preset
    sets them; a custom action is an object with the keys [id], [name] and
    [description]. *)
Record Manifest : Type := {
  schema_url : string;
  id : string;
  version : string;
  name : string;
  description : string;
  author : Author;
  main : string;
  schema : Schema;
  supportsRealTime : bool;
  supportsNonRealTime : bool;
  stepCount : option Z;
  customActions : option (list obj)
}.

(** An instance of the class.  [webComponent] is [null] ([None]) or the text
    of the generated component.  [animationSettings] is not set by the
    constructor ([undefined]); the property panel writes it from outside. *)
Record template : Type := {
  manifest : Manifest;
  elements : list obj;
  webComponent : option string;
  animationSettings : jsval
}.

Definition set_manifest (m : Manifest) (t : template) : template :=
  {| manifest := m; elements := elements t;
     webComponent := webComponent t; animationSettings := animationSettings t |}.

Definition set_elements (els : list obj) (t : template) : template :=
  {| manifest := manifest t; elements := els;
     webComponent := webComponent t; animationSettings := animationSettings t |}.

Definition set_webComponent (w : option string) (t : template) : template :=
  {| manifest := manifest t; elements := elements t;
     webComponent := w; animationSettings := animationSettings t |}.

Definition with_identity (i n d : string) (m : Manifest) : Manifest :=
  {| schema_url := schema_url m; id := i; version := version m; name := n;
     description := d; author := author m; main := main m; schema := schema m;
     supportsRealTime := supportsRealTime m;
     supportsNonRealTime := supportsNonRealTime m;
     stepCount := stepCount m; customActions := customActions m |}.

Definition with_actions (n : Z) (acts : list obj) (m : Manifest) : Manifest :=
  {| schema_url := schema_url m; id := id m; version := version m;
     name := name m; description := description m; author := author m;
     main := main m; schema := schema m;
     supportsRealTime := supportsRealTime m;
     supportsNonRealTime := supportsNonRealTime m;
     stepCount := Some n; customActions := Some acts |}.

Definition with_properties (ps : obj) (m : Manifest) : Manifest :=
  {| schema_url := schema_url m; id := id m; version := version m;
     name := name m; description := description m; author := author m;
     main := main m;
     schema := {| schema_type := schema_type (schema m); properties := ps |};
     supportsRealTime := supportsRealTime m;
     supportsNonRealTime := supportsNonRealTime m;
     stepCount := stepCount m; customActions := customActions m |}.

(** [new OGrafTemplate()]. *)
Definition constructor : template :=
  {| manifest :=
       {| schema_url :=
            "https://ograf.ebu.io/v1/specification/json-schemas/graphics/schema.json";
          id := "";
          version := "1.0.0";
          name := "";
          description := "";
          author := {| author_name := "OGraf Editor"; author_email := "" |};
          main := "template.mjs";
          schema := {| schema_type := "object"; properties := [] |};
          supportsRealTime := true;
          supportsNonRealTime := false;
          stepCount := None;
          customActions := None |};
     elements := [];
     webComponent := None;
     animationSettings := VUndef |}.

(** *** Presets *)

Definition action (i n d : string) : obj :=
  [("id", VStr i); ("name", VStr n); ("description", VStr d)].

Definition property (ty ti de : jsval) : jsval :=
  VObj [("type", ty); ("title", ti); ("default", de)].

(** What a [setup...] method does: it writes the step count, the custom
    actions, the schema properties and the element list. *)
Definition setup (acts : list obj) (ps : obj) (els : list obj) (t : template)
  : template :=
  set_elements els
    (set_manifest (with_properties ps (with_actions 1 acts (manifest t))) t).

Definition setupLowerThird (t : template) : template :=
  setup
    [ action "slideIn" "Slide In"
        "Animate the lower third sliding in from the left";
      action "slideOut" "Slide Out"
        "Animate the lower third sliding out to the left" ]
    [ ("name", property (VStr "string") (VStr "Name") (VStr "John Doe"));
      ("title", property (VStr "string") (VStr "Title") (VStr "Reporter")) ]
    [ [ ("id", VStr "background"); ("type", VStr "rect");
        ("x", VNum 50); ("y", VNum 450);
        ("width", VNum 400); ("height", VNum 80);
        ("style", VObj [ ("backgroundColor", VStr "rgba(0, 120, 204, 0.9)");
                         ("borderRadius", VStr "4px") ]) ];
      [ ("id", VStr "name"); ("type", VStr "text");
        ("x", VNum 70); ("y", VNum 460);
        ("width", VNum 360); ("height", VNum 30);
        ("content", VStr "{{name}}");
        ("style", VObj [ ("fontSize", VStr "24px");
                         ("fontFamily", VStr "Arial, sans-serif");
                         ("fontWeight", VStr "bold");
                         ("color", VStr "#ffffff");
                         ("textAlign", VStr "left") ]) ];
      [ ("id", VStr "title"); ("type", VStr "text");
        ("x", VNum 70); ("y", VNum 490);
        ("width", VNum 360); ("height", VNum 25);
        ("content", VStr "{{title}}");
        ("style", VObj [ ("fontSize", VStr "16px");
                         ("fontFamily", VStr "Arial, sans-serif");
                         ("color", VStr "#ffffff");
                         ("textAlign", VStr "left") ]) ] ]
    t.

Definition setupTitle (t : template) : template :=
  setup
    [ action "slideIn" "Slide In" "Animate the title sliding in";
      action "slideOut" "Slide Out" "Animate the title sliding out" ]
    [ ("title", property (VStr "string") (VStr "Title Text") (VStr "Breaking News"));
      ("subtitle", property (VStr "string") (VStr "Subtitle") (VStr "")) ]
    [ [ ("id", VStr "background"); ("type", VStr "rect");
        ("x", VNum 100); ("y", VNum 200);
        ("width", VNum 600); ("height", VNum 120);
        ("style", VObj [ ("backgroundColor", VStr "rgba(220, 20, 20, 0.9)");
                         ("borderRadius", VStr "8px") ]) ];
      [ ("id", VStr "title"); ("type", VStr "text");
        ("x", VNum 120); ("y", VNum 220);
        ("width", VNum 560); ("height", VNum 50);
        ("content", VStr "{{title}}");
        ("style", VObj [ ("fontSize", VStr "36px");
                         ("fontFamily", VStr "Arial, sans-serif");
                         ("fontWeight", VStr "bold");
                         ("color", VStr "#ffffff");
                         ("textAlign", VStr "center") ]) ];
      [ ("id", VStr "subtitle"); ("type", VStr "text");
        ("x", VNum 120); ("y", VNum 270);
        ("width", VNum 560); ("height", VNum 30);
        ("content", VStr "{{subtitle}}");
        ("style", VObj [ ("fontSize", VStr "18px");
                         ("fontFamily", VStr "Arial, sans-serif");
                         ("color", VStr "#ffffff");
                         ("textAlign", VStr "center") ]) ] ]
    t.

Definition setupBug (t : template) : template :=
  setup
    [ action "slideIn" "Slide In" "Animate the bug sliding in";
      action "slideOut" "Slide Out" "Animate the bug sliding out" ]
    [ ("logo", property (VStr "string") (VStr "Logo URL") (VStr "")) ]
    [ [ ("id", VStr "background"); ("type", VStr "circle");
        ("x", VNum 50); ("y", VNum 50);
        ("width", VNum 80); ("height", VNum 80);
        ("style", VObj [ ("backgroundColor", VStr "rgba(0, 0, 0, 0.8)");
                         ("border", VStr "2px solid #ffffff") ]) ];
      [ ("id", VStr "logo"); ("type", VStr "image");
        ("x", VNum 60); ("y", VNum 60);
        ("width", VNum 60); ("height", VNum 60);
        ("content", VStr "{{logo}}");
        ("style", VObj [ ("objectFit", VStr "contain") ]) ] ]
    t.

Definition setupCustom (t : template) : template :=
  setup
    [ action "slideIn" "Slide In" "Animate the graphic sliding in";
      action "slideOut" "Slide Out" "Animate the graphic sliding out" ]
    [ ("text", property (VStr "string") (VStr "Text") (VStr "Custom Text")) ]
    [ [ ("id", VStr "text"); ("type", VStr "text");
        ("x", VNum 100); ("y", VNum 100);
        ("width", VNum 200); ("height", VNum 50);
        ("content", VStr "{{text}}");
        ("style", VObj [ ("fontSize", VStr "20px");
                         ("fontFamily", VStr "Arial, sans-serif");
                         ("color", VStr "#ffffff");
                         ("textAlign", VStr "left") ]) ] ]
    t.

(** [static createFromType(type, id, name, description)]: the [switch] on the
    type string, whose [default] branch is the custom preset. *)
Definition createFromType (type i n d : string) : template :=
  let t := set_manifest (with_identity i n d (manifest constructor)) constructor in
  if String.eqb type "lower-third" then setupLowerThird t
  else if String.eqb type "title" then setupTitle t
  else if String.eqb type "bug" then setupBug t
  else setupCustom t.

(** *** Mutators *)

Definition addProperty (n : string) (ty ti defaultValue : jsval) (t : template)
  : template :=
  set_manifest
    (with_properties
       (obj_set n (property ty ti defaultValue) (properties (schema (manifest t))))
       (manifest t)) t.


(** [addElement(element)].  [now] is the value of [Date.now()] at the call.
    The object literal writes the generated [id] first and then spreads the
    caller's element over it. *)
Definition addElement (now : Z) (element : obj) (t : template) : template :=
  set_elements
    (elements t ++ [obj_assign [("id", VStr ("element_" ++ of_Z now))] element])
    t.

Definition removeElement (elementId : jsval) (t : template) : template :=
  set_elements
    (filter (fun el => negb (strict_eq (field "id" el) elementId)) (elements t))
    t.

Definition getElementById (elementId : jsval) (t : template) : option obj :=
  find (fun el => strict_eq (field "id" el) elementId) (elements t).

(** [Object.assign] on the first element of the list that [find] returns;
    the element is changed in place, in the list. *)
Fixpoint assign_first (elementId : jsval) (updates : obj) (els : list obj)
  : list obj :=
  match els with
  | [] => []
  | el :: r =>
      if strict_eq (field "id" el) elementId
      then obj_assign el updates :: r
      else el :: assign_first elementId updates r
  end.

Definition updateElement (elementId : jsval) (updates : obj) (t : template)
  : template :=
  match getElementById elementId t with
  | Some _ => set_elements (assign_first elementId updates (elements t)) t
  | None => t
  end.

(** *** Code generation *)

Definition style_rule (element : obj) : string :=
  let styles :=
    join " " (map (fun p => kebabCase (fst p) ++ ": " ++ to_string (snd p) ++ ";")
                  (entries (or_else (field "style" element) (VObj [])))) in
  ".element-" ++ to_string (field "id" element) ++ " { " ++ styles ++ " }".

Definition generateElementStyles (t : template) : string :=
  join nl (map style_rule (elements t)).

(** The head of the class, up to the literal of its element list. *)
Definition src_constructor : string :=
  "Graphic extends HTMLElement {
    constructor() {
        super();
        this.attachShadow({ mode: 'open' });
        this.data = {};
        this.isVisible = false;
        this.elements = ".

(** The end of the constructor and the methods of the graphics API. *)
Definition src_lifecycle : string :=
  "`;
    }

    connectedCallback() {
        this.render();
    }

    async load() {
        this.isVisible = false;
        this.render();
        return Promise.resolve();
    }

    async dispose() {
        this.isVisible = false;
        this.shadowRoot.innerHTML = '';
        return Promise.resolve();
    }

    async playAction(skipAnimation = false) {
        this.isVisible = true;
        this.render();
        
        if (!skipAnimation) {
            // Wait for render to complete before starting animation
            await new Promise(resolve => requestAnimationFrame(resolve));
            // Trigger slide-in animation for lower third
            await this.customAction('slideIn');
        }
        
        return Promise.resolve();
    }

    async stopAction(skipAnimation = false) {
        if (!skipAnimation) {
            // Trigger slide-out animation before hiding
            await this.customAction('slideOut');
        }
        
        this.isVisible = false;
        
        // Completely clear the shadow DOM - back to empty state
        this.shadowRoot.innerHTML = '';
        return Promise.resolve();
    }

    async updateAction(data) {
        this.data = { ...this.data, ...data };
        this.render();
        return Promise.resolve();
    }

    async customAction(action, data) {
        switch (action) {
            case 'slideIn':
                return this.animateSlideIn();
            case 'slideOut':
                return this.animateSlideOut();
            default:
                return Promise.resolve();
        }
    }
    
".

(** [animateSlideIn]. *)
Definition src_animateSlideIn : string :=
  "    animateSlideIn() {
        return new Promise((resolve) => {
            const settings = this.animationSettings || {
                slideInDuration: 500,
                slideInType: 'ease-out',
                slideInDirection: 'left'
            };
            
            const elements = this.shadowRoot.querySelectorAll('.element');
            if (elements.length === 0) {
                resolve();
                return;
            }
            
            const duration = settings.slideInDuration;
            const timing = settings.slideInType;
            const direction = settings.slideInDirection;
            
            let transform = '';
            switch (direction) {
                case 'left': transform = 'translateX(-100%)'; break;
                case 'right': transform = 'translateX(100%)'; break;
                case 'top': transform = 'translateY(-100%)'; break;
                case 'bottom': transform = 'translateY(100%)'; break;
                default: transform = 'translateX(-100%)';
            }
            
            elements.forEach(element => {
                // Set initial position before animation
                element.style.transform = transform;
                element.style.transition = 'none';
            });
            
            // Force a reflow to ensure the initial transform is applied
            this.shadowRoot.offsetHeight;
            
            elements.forEach(element => {
                element.style.transition = `transform ${duration}ms ${timing}`;
                
                // Trigger animation
                requestAnimationFrame(() => {
                    element.style.transform = 'translateX(0) translateY(0)';
                });
            });
            
            // Resolve after animation completes
            setTimeout(resolve, duration);
        });
    }
    
".

(** [animateSlideOut]. *)
Definition src_animateSlideOut : string :=
  "    animateSlideOut() {
        return new Promise((resolve) => {
            const settings = this.animationSettings || {
                slideOutDuration: 500,
                slideOutType: 'ease-in',
                slideOutDirection: 'left'
            };
            
            const elements = this.shadowRoot.querySelectorAll('.element');
            if (elements.length === 0) {
                resolve();
                return;
            }
            
            const duration = settings.slideOutDuration;
            const timing = settings.slideOutType;
            const direction = settings.slideOutDirection || settings.slideInDirection || 'left';
            
            let transform = '';
            switch (direction) {
                case 'left': transform = 'translateX(-100%)'; break;
                case 'right': transform = 'translateX(100%)'; break;
                case 'top': transform = 'translateY(-100%)'; break;
                case 'bottom': transform = 'translateY(100%)'; break;
                default: transform = 'translateX(-100%)';
            }
            
            elements.forEach(element => {
                element.style.transition = `transform ${duration}ms ${timing}`;
                element.style.transform = transform;
            });
            
            // Resolve after animation completes
            setTimeout(resolve, duration);
        });
    }

".

(** [render] and [renderElement]. *)
Definition src_render : string :=
  "    render() {
        const style = `
            <style>
                :host {
                    display: block;
                    position: relative;
                    width: 1920px;
                    height: 1080px;
                    font-family: Arial, sans-serif;
                    overflow: hidden;
                }
                .element {
                    position: absolute;
                }
                ${this.elementStyles}
            </style>
        `;

        const elements = this.elements.map(element => this.renderElement(element)).join('');

        this.shadowRoot.innerHTML = `
            ${style}
            <div class=" ++ dq ++ "container" ++ dq ++ ">
                ${elements}
            </div>
        `;
    }

    renderElement(element) {
        const content = this.interpolateContent(element.content || '');
        const baseStyles = `left: ${element.x}px; top: ${element.y}px; width: ${element.width}px; height: ${element.height}px;`;
        
        // Convert element.style object to CSS string
        const additionalStyles = element.style ? Object.entries(element.style)
            .map(([key, value]) => `${this.kebabCase(key)}: ${value};`)
            .join(' ') : '';
        
        const allStyles = baseStyles + ' ' + additionalStyles;
        
        switch (element.type) {
            case 'text':
                return `<div class=" ++ dq ++ "element element-${element.id}" ++ dq ++ " style=" ++ dq ++ "${allStyles}" ++ dq ++ ">${content}</div>`;
            case 'image':
                return `<img class=" ++ dq ++ "element element-${element.id}" ++ dq ++ " src=" ++ dq ++ "${content}" ++ dq ++ " style=" ++ dq ++ "${allStyles}" ++ dq ++ " />`;
            case 'rect':
            case 'rectangle':
                return `<div class=" ++ dq ++ "element element-${element.id}" ++ dq ++ " style=" ++ dq ++ "${allStyles}" ++ dq ++ "></div>`;
            case 'circle':
                const circleStyles = allStyles + ' border-radius: 50%;';
                return `<div class=" ++ dq ++ "element element-${element.id}" ++ dq ++ " style=" ++ dq ++ "${circleStyles}" ++ dq ++ "></div>`;
            default:
                return '';
        }
    }

".

(** [interpolateContent], [kebabCase], the end of the class and the start of its registration. *)
Definition src_helpers : string :=
  "    interpolateContent(content) {
        const result = content.replace(/\{\{(\w+)\}\}/g, (match, key) => {
            const value = this.data[key] || match;
            return value;
        });
        return result;
    }

    kebabCase(str) {
        return str.replace(/([a-z0-9]|(?=[A-Z]))([A-Z])/g, '$1-$2').toLowerCase();
    }
}

customElements.define('".

(** The template literal of [generateWebComponent], with its six holes. *)
Definition componentCode (className elementsData animationSettingsData
                          elementStyles manifestId : string) : string :=
  nl ++ "class " ++ className ++ src_constructor ++ elementsData
  ++ ";
        this.animationSettings = " ++ animationSettingsData
  ++ ";
        this.elementStyles = `" ++ elementStyles
  ++ src_lifecycle ++ src_animateSlideIn ++ src_animateSlideOut
  ++ src_render ++ src_helpers ++ manifestId
  ++ "-graphic', " ++ className ++ "Graphic);
        ".

(** The text that [generateWebComponent] computes. *)
Definition component_text (t : template) : string :=
  let elementStyles := generateElementStyles t in
  let elementsData := stringify (VArr (map VObj (elements t))) in
  let animationSettingsData := stringify (or_else (animationSettings t) (VObj [])) in
  trim (componentCode (toCamelCase (id (manifest t))) elementsData
          animationSettingsData elementStyles (id (manifest t))).

(** [generateWebComponent()]: stores the text in [webComponent] and returns
    it. *)
Definition generateWebComponent (t : template) : template * string :=
  (set_webComponent (Some (component_text t)) t, component_text t).

(** *** Serialization *)

(** The object that [toJSON] returns and [fromJSON] reads. *)
Record snapshot : Type := {
  json_manifest : Manifest;
  json_elements : list obj;
  json_webComponent : option string
}.

Definition toJSON (t : template) : snapshot :=
  {| json_manifest := manifest t;
     json_elements := elements t;
     json_webComponent := webComponent t |}.

Definition fromJSON (j : snapshot) : template :=
  {| manifest := json_manifest j;
     elements := json_elements j;
     webComponent := json_webComponent j;
     animationSettings := animationSettings constructor |}.

End OGrafTemplate.

(** The artifact that [exportTemplate] (class [TemplateManager]) writes for a
    template: the stored text when there is one, a fresh generation when
    [webComponent] is [null] or empty. *)
Definition exportTemplate_component (t : OGrafTemplate.template)
  : OGrafTemplate.template * string :=
  match OGrafTemplate.webComponent t with
  | Some (String c w) => (t, String c w)
  | _ => OGrafTemplate.generateWebComponent t
  end.

(** ** The custom element registry *)

Module CustomElements.

(** The names that are defined. *)
Definition registry : Type := list string.

Definition get (tag : string) (r : registry) : bool :=
  existsb (String.eqb tag) r.


End CustomElements.




(** ** The generated class: [...Graphic extends HTMLElement] *)

Module Graphic.

(** *** [interpolateContent] *)

(** [\w+]: the longest run of word characters at the head of [s], and the
    text behind it. *)
Fixpoint word_run (s : string) : string * string :=
  match s with
  | String c t =>
      if is_word c
      then let (w, r) := word_run t in (String c w, r)
      else (EmptyString, s)
  | EmptyString => (EmptyString, EmptyString)
  end.

(** [s] behind the literal text [p], when it starts with it. *)
Fixpoint strip_prefix (p s : string) : option string :=
  match p with
  | EmptyString => Some s
  | String a p' =>
      match s with
      | String b s' => if Ascii.eqb a b then strip_prefix p' s' else None
      | EmptyString => None
      end
  end.

(** A match of [/\{\{(\w+)\}\}/] at the head of [s]: the key and the text
    behind the match.  The key is the whole run of word characters behind
    the two braces (a shorter one would be followed by a word character, not
    by a brace), and it is not empty. *)
Definition placeholder_at (s : string) : option (string * string) :=
  match strip_prefix "{{" s with
  | Some t =>
      let (key, r) := word_run t in
      match key, strip_prefix "}}" r with
      | String _ _, Some rest => Some (key, rest)
      | _, _ => None
      end
  | None => None
  end.

Definition placeholder (key : string) : string := "{{" ++ key ++ "}}".

(** [content.replace(regexp, callback)] with the global flag.  Where the
    expression matches, the callback's text replaces the match and the scan
    goes on behind it ([skip] counts the characters of the match still to
    pass); elsewhere the character is copied. *)
Fixpoint replace_from (callback : string -> string -> string) (skip : nat)
  (s : string) : string :=
  match s with
  | EmptyString => EmptyString
  | String c t =>
      match skip with
      | S n => replace_from callback n t
      | O =>
          match placeholder_at s with
          | Some (key, _) =>
              callback (placeholder key) key
              ++ replace_from callback (String.length key + 3) t
          | None => String c (replace_from callback 0 t)
          end
      end
  end.

(** What a plain object inherits from [Object.prototype], as text: reading
    one of these names on an object that does not own it gives a built-in
    function, or the prototype itself for [__proto__], and the replacement
    is its [String()].  The text of a built-in function is the engine's; this
    is the form V8 prints. *)
Definition inherited (key : string) : option string :=
  if String.eqb key "__proto__" then Some "[object Object]"
  else if String.eqb key "constructor"
       then Some "function Object() { [native code] }"
  else if existsb (String.eqb key)
            ["toString"; "toLocaleString"; "valueOf"; "hasOwnProperty";
             "isPrototypeOf"; "propertyIsEnumerable"; "__defineGetter__";
             "__defineSetter__"; "__lookupGetter__"; "__lookupSetter__"]
       then Some ("function " ++ key ++ "() { [native code] }")
  else None.

(** The callback [(match, key) => this.data[key] || match], whose result
    [replace] converts to a string. *)
Definition substitute (data : obj) (matched key : string) : string :=
  match obj_get key data with
  | Some value => if truthy value then to_string value else matched
  | None => match inherited key with Some text => text | None => matched end
  end.

Definition interpolateContent (data : obj) (content : string) : string :=
  replace_from (substitute data) 0 content.

(** *** The shadow tree *)

Inductive tag : Type := Div | Img.

(** A child of the container that matches [.element].  [transform] and
    [transition] are the two properties that the slide methods write into its
    inline style; they are empty on a fresh node. *)
Record node : Type := {
  node_tag : tag;
  node_element : string;
  node_text : string;
  node_src : string;
  node_style : string;
  transform : string;
  transition : string
}.

Definition fresh (tg : tag) (cls text src st : string) : node :=
  {| node_tag := tg; node_element := cls; node_text := text; node_src := src;
     node_style := st; transform := ""; transition := "" |}.

Definition with_style (tf tr : string) (n : node) : node :=
  {| node_tag := node_tag n; node_element := node_element n;
     node_text := node_text n; node_src := node_src n;
     node_style := node_style n; transform := tf; transition := tr |}.

(** [element.content || ''] where the content, when there is one, is a
    string, as in the data model (on another truthy value the call of
    [replace] would fail). *)
Definition content_of (element : obj) : string :=
  match field "content" element with
  | VStr s => s
  | _ => ""
  end.

(** [renderElement(element)]: the node that the returned markup stands for,
    [None] for the empty string of the [default] branch.  The content and
    the id are taken as text: markup inside them is not interpreted. *)
Definition renderElement (data : obj) (element : obj) : option node :=
  let content := interpolateContent data (content_of element) in
  let baseStyles :=
    "left: " ++ to_string (field "x" element) ++ "px; top: "
    ++ to_string (field "y" element) ++ "px; width: "
    ++ to_string (field "width" element) ++ "px; height: "
    ++ to_string (field "height" element) ++ "px;" in
  let additionalStyles :=
    if truthy (field "style" element)
    then join " " (map (fun p => kebabCase (fst p) ++ ": "
                                 ++ to_string (snd p) ++ ";")
                       (entries (field "style" element)))
    else "" in
  let allStyles := baseStyles ++ " " ++ additionalStyles in
  let cls := to_string (field "id" element) in
  let type := field "type" element in
  if strict_eq type (VStr "text") then Some (fresh Div cls content "" allStyles)
  else if strict_eq type (VStr "image") then Some (fresh Img cls "" content allStyles)
  else if (strict_eq type (VStr "rect") || strict_eq type (VStr "rectangle"))%bool
       then Some (fresh Div cls "" "" allStyles)
  else if strict_eq type (VStr "circle")
       then Some (fresh Div cls "" "" (allStyles ++ " border-radius: 50%;"))
  else None.

Fixpoint render_nodes (data : obj) (els : list obj) : list node :=
  match els with
  | [] => []
  | el :: r =>
      match renderElement data el with
      | Some n => n :: render_nodes data r
      | None => render_nodes data r
      end
  end.

(** *** The instance and the event loop around it *)

Inductive method : Type :=
| Mload | Mdispose | MplayAction | MstopAction | MupdateAction | McustomAction.

(** What is still to run when an awaited promise is fulfilled. *)
Inductive reaction : Type :=
| Resolve (m : method)
    (** the method returns: the promise of its call is fulfilled *)
| StopTail
    (** [stopAction] behind [await this.customAction('slideOut')] *).

(** A callback given to [requestAnimationFrame]. *)
Inductive frame_callback : Type :=
| PlayTail
    (** [playAction] behind [await new Promise(resolve =>
        requestAnimationFrame(resolve))] *)
| Neutral (attached : bool)
    (** the callbacks of one [animateSlideIn], which move the nodes it
        captured to the neutral position; [attached] tells whether these
        nodes are still the children of the shadow root *).

(** The instance: its fields, its shadow tree ([None] when [innerHTML] is
    empty), and what the event loop holds for it: promise reactions that are
    ready, frame callbacks, timers with the time at which they are due, the
    clock in milliseconds, and the calls whose promise is fulfilled.  The
    fulfilled calls are listed checkpoint by checkpoint; inside one
    checkpoint they are listed in the order of the queue, which does not
    count the turns that each promise takes to settle. *)
Record graphic : Type := {
  data : obj;
  isVisible : bool;
  elements : list obj;
  animationSettings : jsval;
  shadow : option (list node);
  reactions : list reaction;
  frames : list frame_callback;
  timers : list (N * reaction);
  clock : N;
  fulfilled : list method
}.

Definition set_isVisible (b : bool) (g : graphic) : graphic :=
  {| data := data g; isVisible := b; elements := elements g;
     animationSettings := animationSettings g; shadow := shadow g;
     reactions := reactions g; frames := frames g; timers := timers g;
     clock := clock g; fulfilled := fulfilled g |}.

Definition set_data (d : obj) (g : graphic) : graphic :=
  {| data := d; isVisible := isVisible g; elements := elements g;
     animationSettings := animationSettings g; shadow := shadow g;
     reactions := reactions g; frames := frames g; timers := timers g;
     clock := clock g; fulfilled := fulfilled g |}.

Definition set_reactions (rs : list reaction) (g : graphic) : graphic :=
  {| data := data g; isVisible := isVisible g; elements := elements g;
     animationSettings := animationSettings g; shadow := shadow g;
     reactions := rs; frames := frames g; timers := timers g;
     clock := clock g; fulfilled := fulfilled g |}.

Definition set_frames (fs : list frame_callback) (g : graphic) : graphic :=
  {| data := data g; isVisible := isVisible g; elements := elements g;
     animationSettings := animationSettings g; shadow := shadow g;
     reactions := reactions g; frames := fs; timers := timers g;
     clock := clock g; fulfilled := fulfilled g |}.

Definition set_timers (ts : list (N * reaction)) (g : graphic) : graphic :=
  {| data := data g; isVisible := isVisible g; elements := elements g;
     animationSettings := animationSettings g; shadow := shadow g;
     reactions := reactions g; frames := frames g; timers := ts;
     clock := clock g; fulfilled := fulfilled g |}.

Definition set_clock (now : N) (g : graphic) : graphic :=
  {| data := data g; isVisible := isVisible g; elements := elements g;
     animationSettings := animationSettings g; shadow := shadow g;
     reactions := reactions g; frames := frames g; timers := timers g;
     clock := now; fulfilled := fulfilled g |}.

Definition fulfil (m : method) (g : graphic) : graphic :=
  {| data := data g; isVisible := isVisible g; elements := elements g;
     animationSettings := animationSettings g; shadow := shadow g;
     reactions := reactions g; frames := frames g; timers := timers g;
     clock := clock g; fulfilled := fulfilled g ++ [m] |}.

Definition detach (f : frame_callback) : frame_callback :=
  match f with
  | Neutral _ => Neutral false
  | PlayTail => PlayTail
  end.

(** [this.shadowRoot.innerHTML = ...]: the old children leave the tree, so
    the frame callbacks that hold them no longer reach what is shown. *)
Definition write_shadow (sh : option (list node)) (g : graphic) : graphic :=
  {| data := data g; isVisible := isVisible g; elements := elements g;
     animationSettings := animationSettings g; shadow := sh;
     reactions := reactions g; frames := map detach (frames g);
     timers := timers g; clock := clock g; fulfilled := fulfilled g |}.

(** Writes the inline style of the children in place. *)
Definition restyle (f : node -> node) (g : graphic) : graphic :=
  {| data := data g; isVisible := isVisible g; elements := elements g;
     animationSettings := animationSettings g;
     shadow := option_map (map f) (shadow g);
     reactions := reactions g; frames := frames g; timers := timers g;
     clock := clock g; fulfilled := fulfilled g |}.

Definition later (r : reaction) (g : graphic) : graphic :=
  set_reactions (reactions g ++ [r]) g.

Definition requestAnimationFrame (f : frame_callback) (g : graphic) : graphic :=
  set_frames (frames g ++ [f]) g.

(** Timers are kept in the order in which they fire: by due time, and by
    order of creation among equal due times. *)
Fixpoint schedule (t : N * reaction) (l : list (N * reaction))
  : list (N * reaction) :=
  match l with
  | [] => [t]
  | u :: r => if (fst u <=? fst t)%N then u :: schedule t r else t :: l
  end.

(** [new ...Graphic()]: the constructor, with the element list and the
    animation settings that the generator wrote into it. *)
Definition constructor (els : list obj) (settings : jsval) : graphic :=
  {| data := []; isVisible := false; elements := els;
     animationSettings := settings; shadow := None; reactions := [];
     frames := []; timers := []; clock := 0%N; fulfilled := [] |}.

(** [this.shadowRoot.querySelectorAll('.element')]. *)
Definition querySelectorAll (g : graphic) : list node :=
  match shadow g with Some l => l | None => [] end.

Definition render (g : graphic) : graphic :=
  write_shadow (Some (render_nodes (data g) (elements g))) g.

Definition clear (g : graphic) : graphic := write_shadow None g.

(** The [switch] on the direction. *)
Definition offset (direction : jsval) : string :=
  if strict_eq direction (VStr "left") then "translateX(-100%)"
  else if strict_eq direction (VStr "right") then "translateX(100%)"
  else if strict_eq direction (VStr "top") then "translateY(-100%)"
  else if strict_eq direction (VStr "bottom") then "translateY(100%)"
  else "translateX(-100%)".

Definition neutral : string := "translateX(0) translateY(0)".

Definition transition_text (duration timing : jsval) : string :=
  "transform " ++ to_string duration ++ "ms " ++ to_string timing.

Section Host.

(** The delay in milliseconds that [setTimeout(callback, v)] takes from [v]:
    the host converts [v] to a number and never waits a negative time. *)
Variable timer_delay : jsval -> N.

Definition setTimeout (r : reaction) (v : jsval) (g : graphic) : graphic :=
  set_timers (schedule ((clock g + timer_delay v)%N, r) (timers g)) g.

(** [animateSlideIn()]; [k] is what awaits the promise it returns.  With no
    node the promise is resolved at once.  Otherwise the nodes are put at the
    offset without transition, then given the transition (the state left
    when the method returns), one frame callback per node is requested and
    the timer that resolves the promise is set. *)
Definition animateSlideIn (k : reaction) (g : graphic) : graphic :=
  let settings :=
    or_else (animationSettings g)
      (VObj [("slideInDuration", VNum 500); ("slideInType", VStr "ease-out");
             ("slideInDirection", VStr "left")]) in
  match querySelectorAll g with
  | [] => later k g
  | _ :: _ =>
      let duration := prop "slideInDuration" settings in
      let timing := prop "slideInType" settings in
      let direction := prop "slideInDirection" settings in
      setTimeout k duration
        (requestAnimationFrame (Neutral true)
           (restyle (with_style (offset direction)
                       (transition_text duration timing)) g))
  end.

(** [animateSlideOut()]. *)
Definition animateSlideOut (k : reaction) (g : graphic) : graphic :=
  let settings :=
    or_else (animationSettings g)
      (VObj [("slideOutDuration", VNum 500); ("slideOutType", VStr "ease-in");
             ("slideOutDirection", VStr "left")]) in
  match querySelectorAll g with
  | [] => later k g
  | _ :: _ =>
      let duration := prop "slideOutDuration" settings in
      let timing := prop "slideOutType" settings in
      let direction :=
        or_else (prop "slideOutDirection" settings)
          (or_else (prop "slideInDirection" settings)
             (VStr "left")) in
      setTimeout k duration
        (restyle (with_style (offset direction)
                    (transition_text duration timing)) g)
  end.

(** [customAction(action, data)], whose promise follows the promise of the
    slide; [k] is what awaits it. *)
Definition customAction (k : reaction) (action : string) (g : graphic)
  : graphic :=
  if String.eqb action "slideIn" then animateSlideIn k g
  else if String.eqb action "slideOut" then animateSlideOut k g
  else later k g.

Definition connectedCallback (g : graphic) : graphic := render g.

Definition load (g : graphic) : graphic :=
  later (Resolve Mload) (render (set_isVisible false g)).

Definition dispose (g : graphic) : graphic :=
  later (Resolve Mdispose) (clear (set_isVisible false g)).

(** [playAction(skipAnimation)] up to its first [await]. *)
Definition playAction (skipAnimation : bool) (g : graphic) : graphic :=
  let g1 := render (set_isVisible true g) in
  if negb skipAnimation
  then requestAnimationFrame PlayTail g1
  else later (Resolve MplayAction) g1.

(** [stopAction(skipAnimation)] up to its [await]. *)
Definition stopAction (skipAnimation : bool) (g : graphic) : graphic :=
  if negb skipAnimation
  then customAction StopTail "slideOut" g
  else later (Resolve MstopAction) (clear (set_isVisible false g)).

(** [this.data = { ...this.data, ...data }]. *)
Definition updateAction (d : jsval) (g : graphic) : graphic :=
  later (Resolve MupdateAction)
    (render (set_data (obj_assign (obj_assign [] (data g))
                         (entries d)) g)).

(** A promise reaction runs. *)
Definition react (g : graphic) (r : reaction) : graphic :=
  match r with
  | Resolve m => fulfil m g
  | StopTail => fulfil MstopAction (clear (set_isVisible false g))
  end.

(** The microtask checkpoint: the reactions that are ready run in order. *)
Definition settle (g : graphic) : graphic :=
  fold_left react (reactions g) (set_reactions [] g).

(** A frame callback runs. *)
Definition call_frame (f : frame_callback) (g : graphic) : graphic :=
  match f with
  | PlayTail => customAction (Resolve MplayAction) "slideIn" g
  | Neutral true => restyle (fun n => with_style neutral (transition n) n) g
  | Neutral false => g
  end.

(** The first [n] callbacks of the queue run, each followed by a microtask
    checkpoint; what they request waits for the next frame. *)
Fixpoint run_frames (n : nat) (g : graphic) : graphic :=
  match n with
  | O => g
  | S n' =>
      match frames g with
      | [] => g
      | f :: rest => run_frames n' (settle (call_frame f (set_frames rest g)))
      end
  end.

Definition animation_frame (g : graphic) : graphic :=
  let g0 := settle g in
  run_frames (List.length (frames g0)) g0.

(** A timer fires: its callback resolves the promise of the slide. *)
Definition fire (g : graphic) (t : N * reaction) : graphic :=
  settle (later (snd t) g).

(** [ms] milliseconds pass; the timers that are due by then fire in order. *)
Definition elapse (ms : N) (g : graphic) : graphic :=
  let g0 := settle g in
  let now := (clock g0 + ms)%N in
  let due := filter (fun t => (fst t <=? now)%N) (timers g0) in
  let rest := filter (fun t => negb (fst t <=? now)%N) (timers g0) in
  fold_left fire due (set_clock now (set_timers rest g0)).

(** What the rendering sandbox calls on the element. *)
Inductive call : Type :=
| Connected
| Load
| Dispose
| PlayAction (skipAnimation : bool)
| StopAction (skipAnimation : bool)
| UpdateAction (d : jsval)
| CustomAction (action : string) (d : jsval).

Definition invoke (c : call) (g : graphic) : graphic :=
  match c with
  | Connected => connectedCallback g
  | Load => load g
  | Dispose => dispose g
  | PlayAction skipAnimation => playAction skipAnimation g
  | StopAction skipAnimation => stopAction skipAnimation g
  | UpdateAction d => updateAction d g
  | CustomAction action _ => customAction (Resolve McustomAction) action g
  end.

(** What happens to the instance: a call runs up to its first [await]; the
    task that made the calls ends and the ready reactions run; a frame is
    drawn; time passes. *)
Inductive event : Type :=
| Call (c : call)
| Settle
| Frame
| Elapse (ms : N).

Definition step (g : graphic) (e : event) : graphic :=
  match e with
  | Call c => invoke c g
  | Settle => settle g
  | Frame => animation_frame g
  | Elapse ms => elapse ms g
  end.

Definition run (es : list event) (g : graphic) : graphic :=
  fold_left step es g.

End Host.

End Graphic.

(** ** Callers of the model and of the component *)

(** [s.startsWith(p)]. *)
Fixpoint startsWith (s p : string) {struct p} : bool :=
  match p with
  | EmptyString => true
  | String a p' =>
      match s with
      | String b s' => (Ascii.eqb a b && startsWith s' p')%bool
      | EmptyString => false
      end
  end.

(** [s.includes(p)]. *)
Fixpoint includes (s p : string) : bool :=
  (startsWith s p
   || match s with
      | EmptyString => false
      | String _ t => includes t p
      end)%bool.

(** *** [CodeEditor] *)

Module CodeEditor.

(** The errors that [validateCode] collects when the component tab is open,
    for the text of the component editor. *)
Definition component_errors (component : string) : list string :=
  ((if negb (includes component "HTMLElement")
    then ["Component must extend HTMLElement"] else [])
   ++ flat_map (fun method =>
                  if negb (includes component method)
                  then [("Missing required method: " ++ method)%string] else [])
        ["load"; "dispose"; "playAction"; "stopAction"; "updateAction"])%list.

(** What [validateCode] returns there: [errors.length === 0]. *)
Definition validateCode_component (component : string) : bool :=
  Nat.eqb (List.length (component_errors component)) 0.

End CodeEditor.

(** *** [VisualEditor] *)

Module VisualEditor.

Definition getDefaultContent (type : string) : string :=
  if String.eqb type "text" then "New Text"
  else if String.eqb type "image" then "https://via.placeholder.com/100x100"
  else "".

Definition getDefaultStyle (type : string) : obj :=
  if String.eqb type "text"
  then [ ("fontSize", VStr "20px"); ("fontFamily", VStr "Arial, sans-serif");
         ("color", VStr "#ffffff"); ("textAlign", VStr "left");
         ("backgroundColor", VStr "transparent") ]
  else if String.eqb type "image" then [ ("objectFit", VStr "contain") ]
  else if String.eqb type "rect"
  then [ ("backgroundColor", VStr "#007acc"); ("borderRadius", VStr "0px");
         ("border", VStr "none") ]
  else if String.eqb type "circle"
  then [ ("backgroundColor", VStr "#007acc"); ("border", VStr "none") ]
  else [].

(** The object literal that [addElement(type)] builds. *)
Definition element_of_type (type : string) : obj :=
  [ ("type", VStr type); ("x", VNum 100); ("y", VNum 100);
    ("width", VNum (if String.eqb type "text" then 200 else 100));
    ("height", VNum (if String.eqb type "text" then 50 else 100));
    ("content", VStr (getDefaultContent type));
    ("style", VObj (getDefaultStyle type)) ].

(** [addElement(type)] on the current template: the template with the new
    element, and the id that becomes [selectedElement], read from the last
    element of the list.  [now] is [Date.now()] at the call. *)
Definition addElement (type : string) (now : Z) (t : OGrafTemplate.template)
  : OGrafTemplate.template * jsval :=
  let t' := OGrafTemplate.addElement now (element_of_type type) t in
  (t', field "id" (last (OGrafTemplate.elements t') [])).

(** [deleteSelectedElement()]: nothing without a selection; otherwise the
    elements with the selected id are removed and the selection is cleared
    ([null]). *)
Definition deleteSelectedElement (selectedElement : jsval)
  (t : OGrafTemplate.template) : OGrafTemplate.template * jsval :=
  if truthy selectedElement
  then (OGrafTemplate.removeElement selectedElement t, VNull)
  else (t, selectedElement).

End VisualEditor.

(** ** Templates as shared objects

    A template object holds references: to its manifest and to the array of
    its elements.  [fromJSON] copies these references, not what they point
    to, and [addElement], [addProperty] and the assignments to fields of the
    manifest write through them.  Where two templates may hold the same
    manifest or the same array, the objects are kept in a store, by address.
    The elements of an array are kept as values: none of the operations
    below writes into an element. *)

Module Store.

Definition ref : Type := nat.

(** [f] with the cell at [a] overwritten. *)
Definition write {A : Type} (a : ref) (x : A) (f : ref -> A) : ref -> A :=
  fun b => if Nat.eqb b a then x else f b.

(** A template object. *)
Record instance : Type := {
  manifest_at : ref;
  elements_at : ref;
  webComponent : option string;
  animationSettings : jsval
}.

(** The manifests, the arrays and the template objects, each kind by
    address; the addresses from [fresh] on are free in all three. *)
Record store : Type := {
  manifests : ref -> OGrafTemplate.Manifest;
  arrays : ref -> list obj;
  instances : ref -> instance;
  fresh : ref
}.

(** The template that the object at [r] is, read through its references. *)
Definition template_of (s : store) (r : ref) : OGrafTemplate.template :=
  {| OGrafTemplate.manifest := manifests s (manifest_at (instances s r));
     OGrafTemplate.elements := arrays s (elements_at (instances s r));
     OGrafTemplate.webComponent := webComponent (instances s r);
     OGrafTemplate.animationSettings := animationSettings (instances s r) |}.

(** A template that was just built, with a manifest and an array of its own,
    is put into the store. *)
Definition allocate (t : OGrafTemplate.template) (s : store) : store * ref :=
  ({| manifests := write (fresh s) (OGrafTemplate.manifest t) (manifests s);
      arrays := write (fresh s) (OGrafTemplate.elements t) (arrays s);
      instances :=
        write (fresh s)
          {| manifest_at := fresh s; elements_at := fresh s;
             webComponent := OGrafTemplate.webComponent t;
             animationSettings := OGrafTemplate.animationSettings t |}
          (instances s);
      fresh := S (fresh s) |},
   fresh s).

(** [OGrafTemplate.fromJSON(original.toJSON())]: a new template object whose
    [manifest] and [elements] are those of the original, the same objects.
    (The manifest and the array that the constructor made for it are
    dropped.)  [animationSettings] is not part of the snapshot. *)
Definition fromJSON_toJSON (original : ref) (s : store) : store * ref :=
  ({| manifests := manifests s;
      arrays := arrays s;
      instances :=
        write (fresh s)
          {| manifest_at := manifest_at (instances s original);
             elements_at := elements_at (instances s original);
             webComponent := webComponent (instances s original);
             animationSettings :=
               OGrafTemplate.animationSettings OGrafTemplate.constructor |}
          (instances s);
      fresh := S (fresh s) |},
   fresh s).

(** [template.manifest.id = i; template.manifest.name = n]: written into the
    manifest that the template holds. *)
Definition rename (i n : string) (r : ref) (s : store) : store :=
  {| manifests :=
       write (manifest_at (instances s r))
         (OGrafTemplate.with_identity i n
            (OGrafTemplate.description (manifests s (manifest_at (instances s r))))
            (manifests s (manifest_at (instances s r))))
         (manifests s);
     arrays := arrays s;
     instances := instances s;
     fresh := fresh s |}.

(** [template.webComponent = w]. *)
Definition set_webComponent (w : option string) (r : ref) (s : store) : store :=
  {| manifests := manifests s;
     arrays := arrays s;
     instances :=
       write r
         {| manifest_at := manifest_at (instances s r);
            elements_at := elements_at (instances s r);
            webComponent := w;
            animationSettings := animationSettings (instances s r) |}
         (instances s);
     fresh := fresh s |}.

(** [template.addElement(element)]: [push] on the array that the template
    holds. *)
Definition addElement (now : Z) (element : obj) (r : ref) (s : store) : store :=
  {| manifests := manifests s;
     arrays :=
       write (elements_at (instances s r))
         (OGrafTemplate.elements
            (OGrafTemplate.addElement now element (template_of s r)))
         (arrays s);
     instances := instances s;
     fresh := fresh s |}.

(** [template.removeElement(elementId)]: [filter] makes a new array, and the
    template holds that one from then on. *)
Definition removeElement (elementId : jsval) (r : ref) (s : store) : store :=
  {| manifests := manifests s;
     arrays :=
       write (fresh s)
         (OGrafTemplate.elements
            (OGrafTemplate.removeElement elementId (template_of s r)))
         (arrays s);
     instances :=
       write r
         {| manifest_at := manifest_at (instances s r);
            elements_at := fresh s;
            webComponent := webComponent (instances s r);
            animationSettings := animationSettings (instances s r) |}
         (instances s);
     fresh := S (fresh s) |}.

(** [template.addProperty(name, type, title, defaultValue)]: written into
    the schema of the manifest that the template holds. *)
Definition addProperty (n : string) (ty ti defaultValue : jsval) (r : ref)
  (s : store) : store :=
  {| manifests :=
       write (manifest_at (instances s r))
         (OGrafTemplate.manifest
            (OGrafTemplate.addProperty n ty ti defaultValue (template_of s r)))
         (manifests s);
     arrays := arrays s;
     instances := instances s;
     fresh := fresh s |}.

(** The object at [r] and what it refers to are allocated. *)
Definition allocated (s : store) (r : ref) : bool :=
  (Nat.ltb r (fresh s)
   && Nat.ltb (manifest_at (instances s r)) (fresh s)
   && Nat.ltb (elements_at (instances s r)) (fresh s))%bool.

End Store.

(** ** [TemplateManager] *)

Module TemplateManager.

(** [isValidComponentCode(componentCode)]. *)
Definition isValidComponentCode (componentCode : jsval) : bool :=
  match componentCode with
  | VStr (String c s) =>
      (includes (String c s) "HTMLElement"
       && includes (String c s) "class"
       && (includes (String c s) "playAction" || includes (String c s) "load"))%bool
  | _ => false
  end.

Definition is_number (v : jsval) : bool :=
  match v with VNum _ => true | _ => false end.

(** The messages that [validateTemplate] pushes for the element at [index]. *)
Definition element_errors (index : Z) (element : obj) : list string :=
  let at_index := ("Element " ++ of_Z index)%string in
  ((if negb (truthy (field "id" element))
    then [(at_index ++ ": missing ID")%string] else [])
   ++ (if negb (truthy (field "type" element))
       then [(at_index ++ ": missing type")%string] else [])
   ++ (if negb (is_number (field "x" element))
       then [(at_index ++ ": invalid x position")%string] else [])
   ++ (if negb (is_number (field "y" element))
       then [(at_index ++ ": invalid y position")%string] else [])
   ++ (if negb (is_number (field "width" element))
       then [(at_index ++ ": invalid width")%string] else [])
   ++ (if negb (is_number (field "height" element))
       then [(at_index ++ ": invalid height")%string] else []))%list.

Fixpoint elements_errors (index : Z) (els : list obj) : list string :=
  match els with
  | [] => []
  | el :: r => (element_errors index el ++ elements_errors (index + 1) r)%list
  end.

(** [validateTemplate(template)] on a template of the model, whose manifest
    has a schema with properties and whose elements are a list: the two
    checks on these never fire. *)
Definition validateTemplate_errors (t : OGrafTemplate.template) : list string :=
  let m := OGrafTemplate.manifest t in
  ((if String.eqb (OGrafTemplate.id m) "" then ["Missing template ID"] else [])
   ++ (if String.eqb (OGrafTemplate.name m) ""
       then ["Missing template name"] else [])
   ++ (if String.eqb (OGrafTemplate.main m) ""
       then ["Missing main file reference"] else [])
   ++ elements_errors 0 (OGrafTemplate.elements t))%list.

Definition validateTemplate (t : OGrafTemplate.template) : bool * list string :=
  (Nat.eqb (List.length (validateTemplate_errors t)) 0,
   validateTemplate_errors t).

(** *** [createElementsFromSchema]

    The manifest is what [JSON.parse] gave.  [None] stands for the
    [TypeError] of a property read on [null] or [undefined], or of a call of
    [toLowerCase] on a name that is not a string. *)









(** *** The templates that the manager holds *)

(** What a method call gives: a value, or an [Error] with its message. *)
Inductive outcome (A : Type) : Type :=
| Returns (x : A)
| Throws (message : string).

Arguments Returns {A} x.
Arguments Throws {A} message.

(** The [Map] of the templates, in the order of insertion. *)
Definition table : Type := list (string * Store.ref).

Fixpoint get (k : string) (m : table) : option Store.ref :=
  match m with
  | [] => None
  | (k', r) :: rest => if String.eqb k k' then Some r else get k rest
  end.

Definition has (k : string) (m : table) : bool :=
  match get k m with Some _ => true | None => false end.

(** [set]: the value of a key that is there is replaced where it stands. *)
Fixpoint set (k : string) (r : Store.ref) (m : table) : table :=
  match m with
  | [] => [(k, r)]
  | (k', r') :: rest =>
      if String.eqb k k' then (k', r) :: rest else (k', r') :: set k r rest
  end.

Definition delete (k : string) (m : table) : table :=
  filter (fun p => negb (String.eqb k (fst p))) m.

(** The manager: the objects, the map [templates] and [currentTemplate]
    ([None] for [null]).  [saveToStorage], which the methods call at their
    end, writes the local storage and nothing of the manager; it is left
    out. *)
Record manager : Type := {
  objects : Store.store;
  templates : table;
  currentTemplate : option Store.ref
}.

Definition already_exists (id : string) : string :=
  "Template with id " ++ dq ++ id ++ dq ++ " already exists".

Definition not_found (id : string) : string :=
  "Template with id " ++ dq ++ id ++ dq ++ " not found".

Definition createTemplate (type id name description : string) (m : manager)
  : outcome (manager * Store.ref) :=
  if has id (templates m) then Throws (already_exists id)
  else
    let (s, template) :=
      Store.allocate (OGrafTemplate.createFromType type id name description)
        (objects m) in
    Returns ({| objects := s;
                templates := set id template (templates m);
                currentTemplate := Some template |},
             template).

Definition getTemplate (id : string) (m : manager) : option Store.ref :=
  get id (templates m).

Definition getCurrentTemplate (m : manager) : option Store.ref :=
  currentTemplate m.

Definition setCurrentTemplate (id : string) (m : manager) : manager * bool :=
  match get id (templates m) with
  | Some template =>
      ({| objects := objects m; templates := templates m;
          currentTemplate := Some template |}, true)
  | None => (m, false)
  end.

(** [deleteTemplate(id)]: [currentTemplate] is cleared when the manifest of
    the current template has the id. *)
Definition deleteTemplate (id : string) (m : manager) : manager * bool :=
  if has id (templates m)
  then
    ({| objects := objects m;
        templates := delete id (templates m);
        currentTemplate :=
          match currentTemplate m with
          | Some current =>
              if String.eqb
                   (OGrafTemplate.id
                      (OGrafTemplate.manifest
                         (Store.template_of (objects m) current))) id
              then None else Some current
          | None => None
          end |}, true)
  else (m, false).

Definition duplicateTemplate (id newId newName : string) (m : manager)
  : outcome (manager * Store.ref) :=
  match get id (templates m) with
  | None => Throws (not_found id)
  | Some originalTemplate =>
      if has newId (templates m) then Throws (already_exists newId)
      else
        let (s, duplicatedTemplate) :=
          Store.fromJSON_toJSON originalTemplate (objects m) in
        Returns
          ({| objects :=
                Store.set_webComponent None duplicatedTemplate
                  (Store.rename newId newName duplicatedTemplate s);
              templates := set newId duplicatedTemplate (templates m);
              currentTemplate := currentTemplate m |},
           duplicatedTemplate)
  end.

(** A method of a template, called on a template of the manager. *)
Definition on_template (method : Store.ref -> Store.store -> Store.store)
  (template : Store.ref) (m : manager) : manager :=
  {| objects := method template (objects m);
     templates := templates m;
     currentTemplate := currentTemplate m |}.

(** The template of the manager at a reference. *)
Definition template_at (m : manager) (r : Store.ref) : OGrafTemplate.template :=
  Store.template_of (objects m) r.

(** Every template that the manager holds is allocated. *)
Definition well_formed (m : manager) : bool :=
  (forallb (fun p => Store.allocated (objects m) (snd p)) (templates m)
   && match currentTemplate m with
      | Some current => Store.allocated (objects m) current
      | None => true
      end)%bool.

(** A manager with no template. *)
Definition empty : manager :=
  {| objects :=
       {| Store.manifests := fun _ => OGrafTemplate.manifest OGrafTemplate.constructor;
          Store.arrays := fun _ => [];
          Store.instances :=
            fun _ => {| Store.manifest_at := O; Store.elements_at := O;
                        Store.webComponent := None;
                        Store.animationSettings := VUndef |};
          Store.fresh := O |};
     templates := [];
     currentTemplate := None |}.

End TemplateManager.

(** ** Reference definitions taken from the written specification, and
       sample inputs *)

(** The conversion as the specification words it: a hyphen goes before each
    upper-case letter that is preceded by a lower-case letter or a digit,
    then the whole string is lower-cased.  [after_low] tells whether the
    character before [s] is a lower-case letter or a digit. *)
Fixpoint reference_hyphens (after_low : bool) (s : string) : string :=
  match s with
  | EmptyString => EmptyString
  | String c t =>
      let r := String c (reference_hyphens (is_lower c || is_digit c) t) in
      if (after_low && is_upper c)%bool then String "-" r else r
  end.

Definition kebab_reference (s : string) : string :=
  toLowerCase (reference_hyphens false s).

(** What the expression of [kebabCase] does: a hyphen before every upper-case
    letter. *)
Fixpoint hyphen_capitals (s : string) : string :=
  match s with
  | EmptyString => EmptyString
  | String c t =>
      if is_upper c then String "-" (String c (hyphen_capitals t))
      else String c (hyphen_capitals t)
  end.

(** Every upper-case letter of [s] is preceded by a lower-case letter or a
    digit. *)
Fixpoint capitals_guarded (after_low : bool) (s : string) : bool :=
  match s with
  | EmptyString => true
  | String c t =>
      (implb (is_upper c) after_low
       && capitals_guarded (is_lower c || is_digit c) t)%bool
  end.

(** Counts used to compare the two conversions by length. *)
Fixpoint count_capitals (s : string) : nat :=
  match s with
  | EmptyString => O
  | String c t => ((if is_upper c then 1 else 0) + count_capitals t)%nat
  end.

Fixpoint count_guarded (after_low : bool) (s : string) : nat :=
  match s with
  | EmptyString => O
  | String c t =>
      ((if (after_low && is_upper c)%bool then 1 else 0)
       + count_guarded (is_lower c || is_digit c) t)%nat
  end.

(** The [id]s of the elements, in order. *)
Definition element_ids (t : OGrafTemplate.template) : list jsval :=
  map (field "id") (OGrafTemplate.elements t).

(** The lower-third preset as the editor creates it, and the same template
    once its component has been generated. *)
Definition lower_third : OGrafTemplate.template :=
  OGrafTemplate.createFromType "lower-third" "x" "Name" "d".

Definition lower_third_generated : OGrafTemplate.template :=
  fst (OGrafTemplate.generateWebComponent lower_third).


(** An element that brings its own [id], one the lower-third preset uses. *)
Definition second_background : obj :=
  [ ("id", VStr "background"); ("type", VStr "rect") ].




(** The delay that [setTimeout] takes from a number of the samples: the
    number itself, and no delay for what is not a positive number. *)
Definition delay_of_number (v : jsval) : N :=
  match v with
  | VNum n => Z.to_N n
  | _ => 0%N
  end.

(** The animation settings that the property panel gives a template. *)
Definition defaultAnimationSettings : jsval :=
  VObj [ ("slideInDuration", VNum 500); ("slideOutDuration", VNum 500);
         ("slideInType", VStr "ease-out"); ("slideOutType", VStr "ease-in");
         ("slideInDirection", VStr "left"); ("slideOutDirection", VStr "left") ].

(** The graphic of the lower-third template, constructed and not yet
    connected. *)
Definition lower_third_graphic : Graphic.graphic :=
  Graphic.constructor (OGrafTemplate.elements lower_third)
    defaultAnimationSettings.

(** The graphic is connected, loaded and shown without animation. *)
Definition shown : list Graphic.event :=
  [ Graphic.Call Graphic.Connected; Graphic.Call Graphic.Load; Graphic.Settle;
    Graphic.Call (Graphic.PlayAction true); Graphic.Settle ].

(** Then, in one task, an animated stop and an animated play. *)
Definition stop_then_play : list Graphic.event :=
  (shown ++ [ Graphic.Call (Graphic.StopAction false);
              Graphic.Call (Graphic.PlayAction false); Graphic.Settle ])%list.

(** A call that starts a transition. *)
Definition is_transition (c : Graphic.call) : bool :=
  match c with
  | Graphic.PlayAction _ | Graphic.StopAction _ => true
  | _ => false
  end.

(** The discipline that the specification asks of the runtime: a call that
    starts a transition leaves none of the timers that were pending. *)
Definition cancels_pending_timers (timer_delay : jsval -> N) : Prop :=
  forall g c t,
    is_transition c = true ->
    In t (Graphic.timers g) ->
    ~ In t (Graphic.timers (Graphic.invoke timer_delay c g)).

(** The method whose promise a reaction fulfils. *)
Definition method_of (r : Graphic.reaction) : Graphic.method :=
  match r with
  | Graphic.Resolve m => m
  | Graphic.StopTail => Graphic.MstopAction
  end.


(** The instance after [shown]: visible, with its three nodes. *)
Definition shown_graphic : Graphic.graphic :=
  Graphic.run delay_of_number shown lower_third_graphic.

(** The state in which the stop is under way and the play has been called:
    the instance after [stop_then_play]. *)
Definition superseded_stop : Graphic.graphic :=
  Graphic.run delay_of_number stop_then_play lower_third_graphic.

(** The same instance one frame later, and when the durations have passed. *)
Definition play_under_way : Graphic.graphic :=
  Graphic.run delay_of_number [Graphic.Frame] superseded_stop.

Definition durations_passed : Graphic.graphic :=
  Graphic.run delay_of_number [Graphic.Elapse 500] play_under_way.


(** A stop has run to its end: the graphic is hidden, its shadow root is
    empty, no reaction waits and the promise of a stop is fulfilled. *)
Definition stopped (g : Graphic.graphic) : Prop :=
  Graphic.isVisible g = false /\ Graphic.shadow g = None
  /\ Graphic.reactions g = []
  /\ In Graphic.MstopAction (Graphic.fulfilled g).

(** ** Further notions used in the properties of the model *)

(** No element of the list has the id. *)
Definition no_element (elementId : jsval) (els : list obj) : Prop :=
  forall el, In el els -> strict_eq (field "id" el) elementId = false.

(** The schema properties of a template. *)
Definition schema_properties (t : OGrafTemplate.template) : obj :=
  OGrafTemplate.properties (OGrafTemplate.schema (OGrafTemplate.manifest t)).


(** No character of the string is the given one. *)
Fixpoint lacks (x : ascii) (s : string) : bool :=
  match s with
  | EmptyString => true
  | String c t => (negb (Ascii.eqb c x) && lacks x t)%bool
  end.

(** No hyphen of the string is followed by a lower-case letter. *)
Fixpoint no_hyphen_before_lower (s : string) : bool :=
  match s with
  | EmptyString => true
  | String c t =>
      (match t with
       | String d _ => negb (Ascii.eqb c "-" && is_lower d)
       | EmptyString => true
       end && no_hyphen_before_lower t)%bool
  end.

(** ** Further notions used in the properties of the runtime *)








(** ** Notions used in the properties of the template manager *)

(** The manager after a call, whatever the call gave. *)
Definition after {A : Type}
  (o : TemplateManager.outcome (TemplateManager.manager * A))
  (otherwise : TemplateManager.manager) : TemplateManager.manager :=
  match o with
  | TemplateManager.Returns (m, _) => m
  | TemplateManager.Throws _ => otherwise
  end.

(** A manager that holds the lower-third template [x], which is current. *)
Definition one_template : TemplateManager.manager :=
  after (TemplateManager.createTemplate "lower-third" "x" "Name" "d"
           TemplateManager.empty)
    TemplateManager.empty.

(** ** Notions used in the properties of [createElementsFromSchema] *)






(* ================================================================== *)
(** * Part II.  Properties                                             *)
(* ================================================================== *)

(** ** Letters and case *)

Lemma low_not_upper : forall c,
  (is_lower c || is_digit c)%bool = true -> is_upper c = false.
Proof.
  intros c H. unfold is_lower, is_digit, is_upper, in_range in *.
  apply Bool.orb_true_iff in H.
  apply Bool.andb_false_iff.
  destruct H as [H | H]; apply Bool.andb_true_iff in H; destruct H as [H1 H2];
    apply Nat.leb_le in H1; apply Nat.leb_le in H2.
  - right. apply Nat.leb_gt. lia.
  - left. apply Nat.leb_gt. lia.
Qed.

Lemma toLowerCase_length : forall s,
  String.length (toLowerCase s) = String.length s.
Proof. induction s as [| c t IH]; simpl; congruence. Qed.

(** ** [kebabCase] *)

(** The scan of the expression, which may take two characters at a time, is
    proved together for a string and for the string with one more character
    in front. *)
Lemma kebab_replace_pair : forall s,
  kebab_replace s = hyphen_capitals s
  /\ forall c, kebab_replace (String c s) = hyphen_capitals (String c s).
Proof.
  induction s as [| d t [IH1 IH2]].
  - split; [reflexivity | intro c; simpl; destruct (is_upper c); reflexivity].
  - split; [apply IH2 |].
    intro c.
    change (kebab_replace (String c (String d t)))
      with (if ((is_lower c || is_digit c) && is_upper d)%bool
            then String c (String "-" (String d (kebab_replace t)))
            else if is_upper c
                 then String "-" (String c (kebab_replace (String d t)))
                 else String c (kebab_replace (String d t))).
    change (hyphen_capitals (String c (String d t)))
      with (if is_upper c
            then String "-" (String c (hyphen_capitals (String d t)))
            else String c (hyphen_capitals (String d t))).
    destruct ((is_lower c || is_digit c)%bool) eqn:Hlow; simpl andb.
    + rewrite (low_not_upper c Hlow).
      destruct (is_upper d) eqn:Hd.
      * simpl. rewrite Hd, IH1. reflexivity.
      * rewrite (IH2 d). reflexivity.
    + rewrite (IH2 d). reflexivity.
Qed.

Lemma kebab_replace_spec : forall s, kebab_replace s = hyphen_capitals s.
Proof. intro s. apply (kebab_replace_pair s). Qed.

Lemma hyphen_capitals_length : forall s,
  String.length (hyphen_capitals s) = (String.length s + count_capitals s)%nat.
Proof.
  induction s as [| c t IH]; simpl; [reflexivity |].
  destruct (is_upper c); simpl; rewrite IH; lia.
Qed.

Lemma reference_hyphens_length : forall s b,
  String.length (reference_hyphens b s)
  = (String.length s + count_guarded b s)%nat.
Proof.
  induction s as [| c t IH]; intro b; simpl; [reflexivity |].
  destruct ((b && is_upper c)%bool); simpl; rewrite IH; lia.
Qed.

Lemma count_guarded_le : forall s b, (count_guarded b s <= count_capitals s)%nat.
Proof.
  induction s as [| c t IH]; intro b; simpl; [lia |].
  specialize (IH (is_lower c || is_digit c)%bool).
  destruct b, (is_upper c); simpl; lia.
Qed.

Lemma unguarded_count : forall s b,
  capitals_guarded b s = false -> (count_guarded b s < count_capitals s)%nat.
Proof.
  induction s as [| c t IH]; intros b H; simpl in *; [discriminate |].
  pose proof (count_guarded_le t (is_lower c || is_digit c)%bool) as Hle.
  destruct (is_upper c), b; simpl in *; try lia;
    apply IH in H; lia.
Qed.

Lemma guarded_reference : forall s b,
  capitals_guarded b s = true -> reference_hyphens b s = hyphen_capitals s.
Proof.
  induction s as [| c t IH]; intros b H; simpl in *; [reflexivity |].
  apply Bool.andb_true_iff in H. destruct H as [H1 H2].
  rewrite (IH _ H2).
  destruct (is_upper c), b; simpl in *; try reflexivity; discriminate.
Qed.

(** C7, as the program has it.  [kebabCase] puts a hyphen before every
    upper-case letter, whatever precedes it, and lower-cases the result.  It
    agrees with the conversion of the specification exactly on the keys whose
    upper-case letters are all preceded by a lower-case letter or a digit. *)
Theorem kebabCase_hyphenates_every_capital : forall key,
  kebabCase key = toLowerCase (hyphen_capitals key)
  /\ (kebabCase key = kebab_reference key <-> capitals_guarded false key = true).
Proof.
  intro key. unfold kebabCase, kebab_reference.
  rewrite kebab_replace_spec. split; [reflexivity |]. split.
  - intro H.
    destruct (capitals_guarded false key) eqn:G; [reflexivity | exfalso].
    apply unguarded_count in G.
    apply (f_equal String.length) in H.
    rewrite !toLowerCase_length, hyphen_capitals_length,
      reference_hyphens_length in H.
    lia.
  - intro G. rewrite (guarded_reference _ _ G). reflexivity.
Qed.

(** C7, as the specification states it, fails on a key that starts with an
    upper-case letter or has two of them in a row: the program writes a
    hyphen there and the reference conversion does not. *)
Lemma kebabCase_differs_from_reference :
  kebabCase "WebkitTransform" = "-webkit-transform"
  /\ kebab_reference "WebkitTransform" = "webkit-transform"
  /\ kebabCase "WebkitTransform" <> kebab_reference "WebkitTransform".
Proof. repeat split. discriminate. Qed.

Example kebab_fontSize : kebabCase "fontSize" = "font-size".
Proof. reflexivity. Qed.
Example kebab_backgroundColor : kebabCase "backgroundColor" = "background-color".
Proof. reflexivity. Qed.
Example kebab_objectFit : kebabCase "objectFit" = "object-fit".
Proof. reflexivity. Qed.
Example kebab_reference_fontSize : kebab_reference "fontSize" = "font-size".
Proof. reflexivity. Qed.
Example camel_lower_third_demo : toCamelCase "lower-third-demo" = "LowerThirdDemo".
Proof. reflexivity. Qed.

(** ** Objects *)

Lemma obj_get_set_same : forall k v o, obj_get k (obj_set k v o) = Some v.
Proof.
  intros k v o. induction o as [| [k' v'] r IH]; simpl.
  - rewrite String.eqb_refl. reflexivity.
  - destruct (String.eqb k k') eqn:E; simpl; rewrite E; [reflexivity | exact IH].
Qed.

Lemma obj_get_set_other : forall k k' v o,
  k <> k' -> obj_get k (obj_set k' v o) = obj_get k o.
Proof.
  intros k k' v o Hne. induction o as [| [k2 v2] r IH]; simpl.
  - apply String.eqb_neq in Hne. rewrite Hne. reflexivity.
  - destruct (String.eqb k' k2) eqn:E; simpl.
    + apply String.eqb_eq in E. subst k2.
      apply String.eqb_neq in Hne. rewrite Hne. reflexivity.
    + rewrite IH. reflexivity.
Qed.

Lemma obj_get_absent : forall k o, ~ In k (keys o) -> obj_get k o = None.
Proof.
  intros k o. induction o as [| [k' v'] r IH]; simpl; intro H; [reflexivity |].
  destruct (String.eqb_spec k k') as [-> | Hne]; [exfalso; auto | auto].
Qed.

(** A spread or [Object.assign]: the source's value wins, the target's value
    stays for the keys the source does not have. *)
Lemma obj_get_assign : forall k source target,
  NoDup (keys source) ->
  obj_get k (obj_assign target source)
  = match obj_get k source with
    | Some v => Some v
    | None => obj_get k target
    end.
Proof.
  intros k source. unfold obj_assign.
  induction source as [| [k1 v1] r IH]; intros target Hnd; simpl.
  - reflexivity.
  - inversion Hnd as [| ? ? Hnotin Hnd']; subst.
    rewrite (IH _ Hnd').
    destruct (String.eqb_spec k k1) as [-> | Hne].
    + rewrite (obj_get_absent k1 r Hnotin). apply obj_get_set_same.
    + rewrite (obj_get_set_other k k1 v1 target Hne). reflexivity.
Qed.

(** ** The template model *)

Section TemplateModel.

Import OGrafTemplate.

(** C10.  [addElement] appends one element.  Its [id] is the caller's when
    the element passed in has an [id] property, and [element_<now>]
    otherwise.  Nothing compares it with the ids already there: adding an
    element whose [id] is in use leaves two elements with that [id]. *)
Theorem addElement_keeps_supplied_id : forall now element t,
  NoDup (keys element) ->
  exists el,
    elements (addElement now element t) = (elements t ++ [el])%list
    /\ field "id" el
       = match obj_get "id" element with
         | Some supplied => supplied
         | None => VStr ("element_" ++ of_Z now)
         end
    /\ forall supplied,
         obj_get "id" element = Some supplied ->
         In supplied (element_ids t) ->
         ~ NoDup (element_ids (addElement now element t)).
Proof.
  intros now element t Hnd.
  assert (Hid : field "id"
                  (obj_assign [("id", VStr ("element_" ++ of_Z now))] element)
                = match obj_get "id" element with
                  | Some supplied => supplied
                  | None => VStr ("element_" ++ of_Z now)
                  end).
  { unfold field. rewrite (obj_get_assign _ _ _ Hnd).
    destruct (obj_get "id" element); reflexivity. }
  eexists. split; [reflexivity |]. split; [exact Hid |].
  intros supplied Hsup Hin Hdup.
  assert (Hids : element_ids (addElement now element t)
                 = (element_ids t ++ [supplied])%list).
  { unfold element_ids, addElement, set_elements. cbn [elements].
    rewrite map_app. cbn [map]. rewrite Hid, Hsup. reflexivity. }
  rewrite Hids in Hdup.
  apply NoDup_remove_2 in Hdup. rewrite app_nil_r in Hdup.
  exact (Hdup Hin).
Qed.

(** The preset has an element [background]; a second one is accepted. *)
Lemma addElement_keeps_supplied_id_witness :
  NoDup (keys second_background)
  /\ exists el,
       elements (addElement 1700000000000 second_background lower_third)
       = (elements lower_third ++ [el])%list
       /\ field "id" el = VStr "background"
       /\ ~ NoDup (element_ids
                     (addElement 1700000000000 second_background lower_third)).
Proof.
  assert (Hnd : NoDup (keys second_background)).
  { repeat constructor; simpl; intuition discriminate. }
  split; [exact Hnd |].
  destruct (addElement_keeps_supplied_id 1700000000000 second_background
              lower_third Hnd) as [el [H1 [H2 H3]]].
  exists el. split; [exact H1 |]. split; [exact H2 |].
  apply (H3 (VStr "background")); [reflexivity | simpl; auto].
Defined.

(** *** Presets *)

(** C9, with the key the program uses.  [createFromType] with the type
    ["lower-third"] gives three elements [background], [name] and [title],
    the schema properties [name] and [title], a step count of one and the
    custom actions [slideIn] and [slideOut]; the two text elements show the
    two properties. *)
Theorem createFromType_lower_third :
  element_ids (createFromType "lower-third" "x" "Name" "d")
  = [VStr "background"; VStr "name"; VStr "title"]
  /\ keys (properties (schema (manifest (createFromType "lower-third" "x" "Name" "d"))))
     = ["name"; "title"]
  /\ stepCount (manifest (createFromType "lower-third" "x" "Name" "d")) = Some 1
  /\ option_map (map (field "id"))
       (customActions (manifest (createFromType "lower-third" "x" "Name" "d")))
     = Some [VStr "slideIn"; VStr "slideOut"]
  /\ map (field "content") (elements (createFromType "lower-third" "x" "Name" "d"))
     = [VUndef; VStr "{{name}}"; VStr "{{title}}"]
  /\ id (manifest (createFromType "lower-third" "x" "Name" "d")) = "x"
  /\ name (manifest (createFromType "lower-third" "x" "Name" "d")) = "Name"
  /\ description (manifest (createFromType "lower-third" "x" "Name" "d")) = "d".
Proof. repeat split. Qed.

(** C9, as the specification states it, fails: ["lowerThird"] is not a case
    of the [switch], so the [default] branch builds the custom preset, with
    one element [text] and one schema property [text]. *)
Lemma createFromType_lowerThird_is_custom :
  element_ids (createFromType "lowerThird" "x" "Name" "d") = [VStr "text"]
  /\ keys (properties (schema (manifest (createFromType "lowerThird" "x" "Name" "d"))))
     = ["text"]
  /\ List.length (elements (createFromType "lowerThird" "x" "Name" "d")) <> 3%nat.
Proof. repeat split. discriminate. Qed.

(** The other presets: their elements and schema properties. *)
Example createFromType_title :
  element_ids (createFromType "title" "x" "Name" "d")
  = [VStr "background"; VStr "title"; VStr "subtitle"]
  /\ keys (properties (schema (manifest (createFromType "title" "x" "Name" "d"))))
     = ["title"; "subtitle"].
Proof. split; reflexivity. Qed.

Example createFromType_bug :
  element_ids (createFromType "bug" "x" "Name" "d")
  = [VStr "background"; VStr "logo"]
  /\ keys (properties (schema (manifest (createFromType "bug" "x" "Name" "d"))))
     = ["logo"].
Proof. split; reflexivity. Qed.

(** *** Serialization *)

(** C8.  [fromJSON] of [toJSON] gives back the manifest, the element list and
    the stored component text, present or not. *)
Theorem fromJSON_toJSON : forall t,
  manifest (fromJSON (toJSON t)) = manifest t
  /\ elements (fromJSON (toJSON t)) = elements t
  /\ webComponent (fromJSON (toJSON t)) = webComponent t.
Proof. intro t. repeat split. Qed.

(** The animation settings are not part of what [toJSON] writes. *)
Remark fromJSON_drops_animationSettings : forall t,
  animationSettings (fromJSON (toJSON t)) = VUndef.
Proof. reflexivity. Qed.

(** *** The stored component and the mutators *)



(** *** The generator *)

Lemma component_text_inputs : forall t t',
  id (manifest t) = id (manifest t') ->
  elements t = elements t' ->
  animationSettings t = animationSettings t' ->
  component_text t = component_text t'.
Proof.
  intros t t' Hid Hel Has. unfold component_text, generateElementStyles.
  rewrite Hid, Hel, Has. reflexivity.
Qed.

(** C6.  The generated text depends on the manifest, the element list and
    the animation settings only: two templates that agree on them give the
    same text, and generating again on the template that the first
    generation left gives the same text and leaves the same template. *)
Theorem generateWebComponent_deterministic : forall t t',
  manifest t = manifest t' ->
  elements t = elements t' ->
  animationSettings t = animationSettings t' ->
  snd (generateWebComponent t) = snd (generateWebComponent t')
  /\ snd (generateWebComponent (fst (generateWebComponent t)))
     = snd (generateWebComponent t)
  /\ fst (generateWebComponent (fst (generateWebComponent t)))
     = fst (generateWebComponent t).
Proof.
  intros t t' Hm Hel Has. unfold generateWebComponent. cbn [fst snd].
  assert (H1 : component_text t = component_text t').
  { apply component_text_inputs; [rewrite Hm; reflexivity | exact Hel | exact Has]. }
  assert (H2 : component_text (set_webComponent (Some (component_text t)) t)
               = component_text t).
  { apply component_text_inputs; reflexivity. }
  split; [exact H1 |]. split; [exact H2 |].
  rewrite H2. reflexivity.
Qed.

(** The preset before and after its component is stored: the same inputs, the
    same text. *)
Lemma generateWebComponent_deterministic_witness :
  manifest lower_third = manifest lower_third_generated
  /\ elements lower_third = elements lower_third_generated
  /\ animationSettings lower_third = animationSettings lower_third_generated
  /\ snd (generateWebComponent lower_third)
     = snd (generateWebComponent lower_third_generated).
Proof.
  assert (Hm : manifest lower_third = manifest lower_third_generated)
    by reflexivity.
  assert (He : elements lower_third = elements lower_third_generated)
    by reflexivity.
  assert (Ha : animationSettings lower_third
               = animationSettings lower_third_generated) by reflexivity.
  split; [exact Hm |]. split; [exact He |]. split; [exact Ha |].
  exact (proj1 (generateWebComponent_deterministic
                  lower_third lower_third_generated Hm He Ha)).
Defined.

(** *** The text of the component and its registration *)


Lemma append_empty : forall a b : string, a ++ b = "" -> b = "".
Proof. destruct a; simpl; intros b H; [exact H | discriminate]. Qed.

(** [trimEnd] leaves alone what stands before a text that does not end in
    white space. *)
Lemma trimEnd_append : forall a b b',
  trimEnd b = b' /\ b' <> "" ->
  trimEnd (a ++ b) = a ++ b' /\ a ++ b' <> "".
Proof.
  intros a b b' [Hb Hne]. induction a as [| c a [IH1 IH2]]; simpl.
  - split; assumption.
  - split; [| discriminate].
    rewrite IH1. destruct (a ++ b') eqn:E; [contradiction | reflexivity].
Qed.

(** [trim] removes the line break in front of [class] and the line break and
    indentation behind the last statement, and nothing else. *)
Lemma component_text_eq : forall t,
  component_text t
  = "class " ++ toCamelCase (id (manifest t)) ++ src_constructor
    ++ stringify (VArr (map VObj (elements t)))
    ++ ";
        this.animationSettings = "
    ++ stringify (or_else (animationSettings t) (VObj []))
    ++ ";
        this.elementStyles = `" ++ generateElementStyles t
    ++ src_lifecycle ++ src_animateSlideIn ++ src_animateSlideOut
    ++ src_render ++ src_helpers ++ id (manifest t)
    ++ "-graphic', " ++ toCamelCase (id (manifest t)) ++ "Graphic);".
Proof.
  intro t. unfold component_text, componentCode, trim.
  change (trimStart (nl ++ "class " ++ ?x)) with ("class " ++ x).
  apply trimEnd_append.
  do 15 apply trimEnd_append.
  split; [reflexivity | discriminate].
Qed.




End TemplateModel.

(** ** The content interpolator *)

Section Interpolation.

Import Graphic.














Lemma replace_from_copy : forall f c t,
  placeholder_at (String c t) = None ->
  replace_from f 0 (String c t) = String c (replace_from f 0 t).
Proof. intros f c t H. cbn [replace_from]. rewrite H. reflexivity. Qed.





Example interpolate_name :
  interpolateContent [("name", VStr "Jane")] "{{name}}" = "Jane".
Proof. reflexivity. Qed.

Example interpolate_missing : interpolateContent [] "{{missing}}" = "{{missing}}".
Proof. reflexivity. Qed.

Example interpolate_inherited :
  interpolateContent [] "{{constructor}}" = "function Object() { [native code] }".
Proof. reflexivity. Qed.

End Interpolation.

(** ** The runtime of the generated class *)

Section Runtime.

Import Graphic.

(** *** Promise reactions *)

Lemma react_fold : forall rs g,
  fulfilled (fold_left react rs g) = (fulfilled g ++ map method_of rs)%list
  /\ reactions (fold_left react rs g) = reactions g
  /\ timers (fold_left react rs g) = timers g
  /\ clock (fold_left react rs g) = clock g
  /\ data (fold_left react rs g) = data g.
Proof.
  induction rs as [| r rs IH]; intro g; cbn [fold_left map].
  - rewrite app_nil_r. repeat split.
  - destruct (IH (react g r)) as [H1 [H2 [H3 [H4 H5]]]].
    rewrite H1, H2, H3, H4, H5.
    destruct r; cbn; rewrite <- app_assoc; repeat split.
Qed.

Lemma settle_spec : forall g,
  fulfilled (settle g) = (fulfilled g ++ map method_of (reactions g))%list
  /\ reactions (settle g) = []
  /\ timers (settle g) = timers g
  /\ clock (settle g) = clock g
  /\ data (settle g) = data g.
Proof.
  intro g. unfold settle.
  destruct (react_fold (reactions g) (set_reactions [] g)) as [H1 [H2 [H3 [H4 H5]]]].
  rewrite H1, H2, H3, H4, H5. repeat split.
Qed.


(** *** [load] *)



(** *** Timers *)

Variable timer_delay : jsval -> N.

Lemma schedule_In : forall t l u, In u (schedule t l) <-> u = t \/ In u l.
Proof.
  intros t l u. induction l as [| v l IH]; cbn [schedule].
  - simpl. intuition.
  - destruct (fst v <=? fst t)%N; simpl; rewrite ?IH; intuition.
Qed.

Lemma setTimeout_timers : forall k v g t,
  In t (timers (setTimeout timer_delay k v g))
  <-> t = ((clock g + timer_delay v)%N, k) \/ In t (timers g).
Proof. intros k v g t. unfold setTimeout. cbn. apply schedule_In. Qed.

Lemma animateSlideIn_keeps : forall k g t,
  In t (timers g) -> In t (timers (animateSlideIn timer_delay k g)).
Proof.
  intros k g t H. unfold animateSlideIn.
  destruct (querySelectorAll g); [exact H |].
  apply setTimeout_timers. right. exact H.
Qed.

Lemma animateSlideOut_keeps : forall k g t,
  In t (timers g) -> In t (timers (animateSlideOut timer_delay k g)).
Proof.
  intros k g t H. unfold animateSlideOut.
  destruct (querySelectorAll g); [exact H |].
  apply setTimeout_timers. right. exact H.
Qed.

Lemma customAction_keeps : forall k action g t,
  In t (timers g) -> In t (timers (customAction timer_delay k action g)).
Proof.
  intros k action g t H. unfold customAction.
  destruct (String.eqb action "slideIn"); [apply animateSlideIn_keeps, H |].
  destruct (String.eqb action "slideOut"); [apply animateSlideOut_keeps, H |].
  exact H.
Qed.

Lemma invoke_keeps : forall c g t,
  In t (timers g) -> In t (timers (invoke timer_delay c g)).
Proof.
  intros c g t H. destruct c as [| | | skip | skip | d | action d]; cbn [invoke];
    try exact H.
  - unfold playAction. destruct skip; exact H.
  - unfold stopAction. destruct skip; cbn [negb];
      [exact H | apply customAction_keeps, H].
  - apply customAction_keeps, H.
Qed.

(** An animated [stopAction] on a graphic that shows nodes waits for a
    timer. *)
Lemma stopAction_sets_timer : forall g n ns,
  shadow g = Some (n :: ns) ->
  exists due, (clock g <= due)%N
              /\ In (due, StopTail) (timers (stopAction timer_delay false g)).
Proof.
  intros g n ns Hs. unfold stopAction, customAction, animateSlideOut.
  cbn [negb String.eqb]. unfold querySelectorAll. rewrite Hs.
  eexists. split; [| apply setTimeout_timers; left; reflexivity].
  cbn. lia.
Qed.

Lemma fire_stops : forall g t,
  reactions g = [] ->
  (snd t = StopTail \/ stopped g) ->
  stopped (fire g t) /\ reactions (fire g t) = [].
Proof.
  intros g [due r] Hr H. unfold fire, settle, later. cbn in H |- *.
  rewrite Hr. cbn.
  destruct H as [-> | [Hv [Hs [_ Hf]]]].
  - cbn. unfold stopped. cbn. repeat split.
    apply in_or_app. right. left. reflexivity.
  - destruct r; cbn; unfold stopped; cbn; repeat split; try assumption;
      apply in_or_app; auto.
Qed.

Lemma fire_idle : forall g t, reactions g = [] -> reactions (fire g t) = [].
Proof.
  intros g [due r] Hr. unfold fire, settle, later. cbn. rewrite Hr.
  destruct r; reflexivity.
Qed.

Lemma fires_stop : forall due t g,
  reactions g = [] ->
  (In t due /\ snd t = StopTail) \/ stopped g ->
  stopped (fold_left fire due g).
Proof.
  induction due as [| u due IH]; intros t g Hr H; cbn [fold_left].
  - destruct H as [[[] _] | H]; exact H.
  - apply (IH t); [apply fire_idle, Hr |].
    destruct H as [[[-> | Hin] Ht] | Hst].
    + right. apply fire_stops; auto.
    + left. split; assumption.
    + right. apply fire_stops; auto.
Qed.

Lemma customAction_clock : forall k action g,
  clock (customAction timer_delay k action g) = clock g.
Proof.
  intros k action g. unfold customAction, animateSlideIn, animateSlideOut.
  destruct (String.eqb action "slideIn");
    [| destruct (String.eqb action "slideOut")];
    try (destruct (querySelectorAll g)); reflexivity.
Qed.

Lemma invoke_clock : forall c g, clock (invoke timer_delay c g) = clock g.
Proof.
  intros c g. destruct c as [| | | skip | skip | d | action d]; cbn [invoke];
    try reflexivity.
  - unfold playAction. destruct skip; reflexivity.
  - unfold stopAction. destruct skip; cbn [negb];
      [reflexivity | apply customAction_clock].
  - apply customAction_clock.
Qed.

Lemma call_frame_keeps : forall f g t,
  In t (timers g) -> In t (timers (call_frame timer_delay f g)).
Proof.
  intros f g t H. destruct f as [| []]; cbn [call_frame];
    [apply customAction_keeps, H | exact H | exact H].
Qed.

Lemma call_frame_clock : forall f g,
  clock (call_frame timer_delay f g) = clock g.
Proof.
  intros f g. destruct f as [| []]; cbn [call_frame];
    [apply customAction_clock | reflexivity | reflexivity].
Qed.

Lemma run_frames_clock : forall n g,
  clock (run_frames timer_delay n g) = clock g.
Proof.
  induction n as [| n IH]; intro g; cbn [run_frames]; [reflexivity |].
  destruct (frames g) as [| f rest]; [reflexivity |].
  rewrite IH.
  destruct (settle_spec (call_frame timer_delay f (set_frames rest g)))
    as [_ [_ [_ [Hc _]]]].
  rewrite Hc, call_frame_clock. reflexivity.
Qed.

Lemma run_frames_keeps : forall n g t,
  In t (timers g) -> In t (timers (run_frames timer_delay n g)).
Proof.
  induction n as [| n IH]; intros g t H; cbn [run_frames]; [exact H |].
  destruct (frames g) as [| f rest]; [exact H |].
  apply IH.
  destruct (settle_spec (call_frame timer_delay f (set_frames rest g)))
    as [_ [_ [Ht _]]].
  rewrite Ht. apply call_frame_keeps. exact H.
Qed.

Lemma fire_fold : forall due g,
  timers (fold_left fire due g) = timers g
  /\ clock (fold_left fire due g) = clock g.
Proof.
  induction due as [| u due IH]; intro g; cbn [fold_left]; [auto |].
  destruct (IH (fire g u)) as [H1 H2]. rewrite H1, H2.
  unfold fire. destruct (settle_spec (later (snd u) g)) as [_ [_ [Ht [Hc _]]]].
  rewrite Ht, Hc. split; reflexivity.
Qed.

Lemma elapse_spec : forall ms g,
  timers (elapse ms g)
  = filter (fun t => negb (fst t <=? clock g + ms)%N) (timers g)
  /\ clock (elapse ms g) = (clock g + ms)%N.
Proof.
  intros ms g. unfold elapse.
  destruct (settle_spec g) as [_ [_ [Ht [Hc _]]]].
  match goal with
  | |- timers (fold_left fire ?due ?g0) = _ /\ _ =>
      destruct (fire_fold due g0) as [H1 H2]; rewrite H1, H2
  end.
  cbn. rewrite Ht, Hc. split; reflexivity.
Qed.

Lemma step_clock : forall e g, (clock g <= clock (step timer_delay g e))%N.
Proof.
  intros e g. destruct e as [c | | | ms]; cbn [step].
  - rewrite invoke_clock. lia.
  - destruct (settle_spec g) as [_ [_ [_ [Hc _]]]]. rewrite Hc. lia.
  - unfold animation_frame. rewrite run_frames_clock.
    destruct (settle_spec g) as [_ [_ [_ [Hc _]]]]. rewrite Hc. lia.
  - destruct (elapse_spec ms g) as [_ Hc]. rewrite Hc. lia.
Qed.

(** One event: a pending timer stays, or its time has come. *)
Lemma step_keeps : forall e g t,
  In t (timers g) ->
  In t (timers (step timer_delay g e))
  \/ (fst t <= clock (step timer_delay g e))%N.
Proof.
  intros e g t H. destruct e as [c | | | ms]; cbn [step].
  - left. apply invoke_keeps, H.
  - destruct (settle_spec g) as [_ [_ [Ht _]]]. rewrite Ht. left. exact H.
  - left. unfold animation_frame. apply run_frames_keeps.
    destruct (settle_spec g) as [_ [_ [Ht _]]]. rewrite Ht. exact H.
  - destruct (elapse_spec ms g) as [Ht Hc]. rewrite Ht, Hc.
    destruct (fst t <=? clock g + ms)%N eqn:E.
    + right. apply N.leb_le. exact E.
    + left. apply filter_In. split; [exact H |]. rewrite E. reflexivity.
Qed.

Lemma run_clock : forall es g, (clock g <= clock (run timer_delay es g))%N.
Proof.
  unfold run. induction es as [| e es IH]; intro g; cbn [fold_left]; [lia |].
  specialize (IH (step timer_delay g e)).
  pose proof (step_clock e g). lia.
Qed.

Lemma run_keeps : forall es g t,
  In t (timers g) ->
  In t (timers (run timer_delay es g))
  \/ (fst t <= clock (run timer_delay es g))%N.
Proof.
  induction es as [| e es IH]; intros g t H; [left; exact H |].
  change (run timer_delay (e :: es) g)
    with (run timer_delay es (step timer_delay g e)).
  destruct (step_keeps e g t H) as [Hin | Hdue].
  - apply IH, Hin.
  - right. pose proof (run_clock es (step timer_delay g e)). lia.
Qed.

(** C1, as the program has it.  No call cancels a timer: what is pending
    before a call, of a transition or not, is pending after it, and over any
    sequence of calls, checkpoints, frames and delays a timer stays pending
    until its time has come.  An animated [stopAction] on a graphic that
    shows nodes waits for a timer; and when the time of such a timer has
    come, the rest of that [stopAction] runs, whatever was called in
    between: [isVisible] becomes [false], the shadow root is emptied and the
    promise of the stop is fulfilled. *)
Theorem timers_are_never_cancelled : forall g,
  (forall c t, In t (timers g) -> In t (timers (invoke timer_delay c g)))
  /\ (forall es t,
        In t (timers g) ->
        In t (timers (run timer_delay es g))
        \/ (fst t <= clock (run timer_delay es g))%N)
  /\ (forall n ns,
        shadow g = Some (n :: ns) ->
        exists due,
          (clock g <= due)%N
          /\ In (due, StopTail) (timers (stopAction timer_delay false g)))
  /\ (forall due ms,
        In (due, StopTail) (timers g) ->
        (due <= clock g + ms)%N ->
        isVisible (elapse ms g) = false
        /\ shadow (elapse ms g) = None
        /\ In MstopAction (fulfilled (elapse ms g))).
Proof.
  intro g. split; [intros c t; apply invoke_keeps |].
  split; [intros es t; apply run_keeps |].
  split; [apply stopAction_sets_timer |].
  intros due ms Hin Hdue. unfold elapse.
  destruct (settle_spec g) as [_ [Hr [Ht [Hc _]]]].
  assert (Hst : stopped
            (fold_left fire
               (filter (fun t => (fst t <=? clock (settle g) + ms)%N)
                  (timers (settle g)))
               (set_clock (clock (settle g) + ms)
                  (set_timers
                     (filter (fun t => negb (fst t <=? clock (settle g) + ms)%N)
                        (timers (settle g)))
                     (settle g))))).
  { apply (fires_stop _ (due, StopTail)); [exact Hr |].
    left. split; [| reflexivity].
    apply filter_In. rewrite Ht, Hc. split; [exact Hin |].
    apply N.leb_le. exact Hdue. }
  destruct Hst as [Hv [Hs [_ Hf]]]. repeat split; assumption.
Qed.

End Runtime.

(** The stop that a play supersedes: it sets a timer on the graphic that is
    shown, its timer is pending when the play is called and stays pending
    through the next frame, and it fires. *)
Lemma timers_are_never_cancelled_witness :
  (exists n ns, Graphic.shadow shown_graphic = Some (n :: ns))
  /\ (exists due,
        In (due, Graphic.StopTail)
          (Graphic.timers (Graphic.stopAction delay_of_number false shown_graphic)))
  /\ In (500%N, Graphic.StopTail) (Graphic.timers superseded_stop)
  /\ (500 <= Graphic.clock superseded_stop + 500)%N
  /\ In (500%N, Graphic.StopTail)
       (Graphic.timers
          (Graphic.invoke delay_of_number (Graphic.PlayAction false)
             superseded_stop))
  /\ (In (500%N, Graphic.StopTail) (Graphic.timers play_under_way)
      \/ (500 <= Graphic.clock play_under_way)%N)
  /\ Graphic.isVisible (Graphic.elapse 500 superseded_stop) = false
  /\ Graphic.shadow (Graphic.elapse 500 superseded_stop) = None.
Proof.
  assert (Hshown : exists n ns, Graphic.shadow shown_graphic = Some (n :: ns)).
  { vm_compute. eexists. eexists. reflexivity. }
  assert (Hin : In (500%N, Graphic.StopTail) (Graphic.timers superseded_stop)).
  { vm_compute. left. reflexivity. }
  assert (Hdue : (500 <= Graphic.clock superseded_stop + 500)%N).
  { vm_compute. discriminate. }
  destruct (timers_are_never_cancelled delay_of_number shown_graphic)
    as [_ [_ [Hset _]]].
  destruct (timers_are_never_cancelled delay_of_number superseded_stop)
    as [Hkeep [Hrun [_ Hfire]]].
  destruct (Hfire 500%N 500%N Hin Hdue) as [Hv [Hs _]].
  split; [exact Hshown |].
  split.
  { destruct Hshown as [n [ns Hsh]].
    destruct (Hset n ns Hsh) as [due [_ Hd]]. exists due. exact Hd. }
  split; [exact Hin |]. split; [exact Hdue |].
  split; [exact (Hkeep (Graphic.PlayAction false) _ Hin) |].
  split; [exact (Hrun [Graphic.Frame] _ Hin) |].
  split; assumption.
Defined.

(** C1, as the specification states it, fails.  The graphic is shown; an
    animated stop is called and, before its duration has passed, an animated
    play.  The timer of the stop is still pending when the play has begun.
    One frame later the play has set its own timer and two are pending.
    When the durations have passed the rest of the stop has run behind the
    play: the graphic is hidden and its shadow root is empty, although the
    play was the last transition to start. *)
Lemma superseded_stop_completes_after_play :
  ~ cancels_pending_timers delay_of_number
  /\ Graphic.isVisible superseded_stop = true
  /\ Graphic.timers superseded_stop = [(500%N, Graphic.StopTail)]
  /\ Graphic.timers play_under_way
     = [(500%N, Graphic.StopTail); (500%N, Graphic.Resolve Graphic.MplayAction)]
  /\ Graphic.isVisible durations_passed = false
  /\ Graphic.shadow durations_passed = None
  /\ Graphic.fulfilled durations_passed
     = [Graphic.Mload; Graphic.MplayAction; Graphic.MstopAction;
        Graphic.MplayAction].
Proof.
  split.
  - intro H.
    apply (H (Graphic.run delay_of_number
                (shown ++ [Graphic.Call (Graphic.StopAction false)])%list
                lower_third_graphic)
             (Graphic.PlayAction false) (500%N, Graphic.StopTail) eq_refl);
      vm_compute; left; reflexivity.
  - vm_compute. repeat split.
Qed.

(** The checks of the specification on the state machine: after [load] and
    an unanimated play the graphic is visible and no timer is pending; an
    animated play is fulfilled when its duration has passed and not
    before. *)
Example play_without_animation :
  Graphic.isVisible (Graphic.run delay_of_number shown lower_third_graphic) = true
  /\ Graphic.timers (Graphic.run delay_of_number shown lower_third_graphic) = [].
Proof. vm_compute. split; reflexivity. Qed.

Example animated_play_waits :
  Graphic.fulfilled
    (Graphic.run delay_of_number
       [Graphic.Call Graphic.Connected; Graphic.Call (Graphic.PlayAction false);
        Graphic.Settle; Graphic.Frame; Graphic.Frame; Graphic.Elapse 499]
       lower_third_graphic) = []
  /\ Graphic.fulfilled
       (Graphic.run delay_of_number
          [Graphic.Call Graphic.Connected; Graphic.Call (Graphic.PlayAction false);
           Graphic.Settle; Graphic.Frame; Graphic.Frame; Graphic.Elapse 499;
           Graphic.Elapse 1]
          lower_third_graphic) = [Graphic.MplayAction]
  /\ option_map (map Graphic.transform)
       (Graphic.shadow
          (Graphic.run delay_of_number
             [Graphic.Call Graphic.Connected;
              Graphic.Call (Graphic.PlayAction false);
              Graphic.Settle; Graphic.Frame; Graphic.Frame]
             lower_third_graphic))
     = Some [Graphic.neutral; Graphic.neutral; Graphic.neutral].
Proof. vm_compute. repeat split. Qed.

(* ================================================================== *)
(** * Part III.  Further properties of the program                     *)
(* ================================================================== *)

(** ** The mutators of the template model *)

Section ModelLaws.

Import OGrafTemplate.

Lemma find_none_no_element : forall elementId els,
  find (fun el => strict_eq (field "id" el) elementId) els = None
  <-> no_element elementId els.
Proof.
  intros elementId els. unfold no_element. split.
  - intros H el Hin. exact (find_none _ _ H el Hin).
  - intro H. induction els as [| e r IH]; [reflexivity |].
    cbn [find]. rewrite (H e (or_introl eq_refl)).
    apply IH. intros el Hin. apply H. right. exact Hin.
Qed.

Lemma assign_first_split : forall elementId updates pre el post,
  no_element elementId pre ->
  strict_eq (field "id" el) elementId = true ->
  assign_first elementId updates (pre ++ el :: post)
  = (pre ++ obj_assign el updates :: post)%list.
Proof.
  intros elementId updates pre el post Hpre Hel.
  induction pre as [| e pre IH]; cbn [assign_first app].
  - rewrite Hel. reflexivity.
  - rewrite (Hpre e (or_introl eq_refl)). f_equal.
    apply IH. intros x Hx. apply Hpre. right. exact Hx.
Qed.

(** [updateElement]: an id that no element has changes nothing; otherwise
    the updates are merged into the first element with the id, and into no
    other: the elements before and behind it, also those with the same id,
    stay as they are.  In the merged element a field of the updates has the
    value of the updates and any other field keeps its value. *)
Theorem updateElement_first_match : forall elementId updates t,
  (no_element elementId (elements t) -> updateElement elementId updates t = t)
  /\ (forall pre el post,
        elements t = (pre ++ el :: post)%list ->
        no_element elementId pre ->
        strict_eq (field "id" el) elementId = true ->
        elements (updateElement elementId updates t)
        = (pre ++ obj_assign el updates :: post)%list
        /\ manifest (updateElement elementId updates t) = manifest t
        /\ (NoDup (keys updates) ->
            forall k,
              obj_get k (obj_assign el updates)
              = match obj_get k updates with
                | Some v => Some v
                | None => obj_get k el
                end)).
Proof.
  intros elementId updates t. split.
  - intro H. unfold updateElement, getElementById.
    apply find_none_no_element in H. rewrite H. reflexivity.
  - intros pre el post Hels Hpre Hel.
    assert (Hfound : getElementById elementId t <> None).
    { unfold getElementById. intro Hn. apply find_none_no_element in Hn.
      assert (Hin : In el (elements t)).
      { rewrite Hels. apply in_or_app. right. left. reflexivity. }
      rewrite (Hn el Hin) in Hel. discriminate. }
    unfold updateElement.
    destruct (getElementById elementId t) as [found |]; [| contradiction].
    cbn [elements manifest set_elements]. rewrite Hels.
    split; [apply assign_first_split; assumption |].
    split; [reflexivity |].
    intros Hnd k. apply obj_get_assign. exact Hnd.
Qed.

Lemma updateElement_first_match_witness :
  no_element (VStr "title") [nth 0 (elements lower_third) []; nth 1 (elements lower_third) []]
  /\ map (field "x")
       (elements (updateElement (VStr "title") [("x", VNum 5)] lower_third))
     = [VNum 50; VNum 70; VNum 5]
  /\ updateElement (VStr "missing") [("x", VNum 5)] lower_third = lower_third.
Proof.
  assert (Hpre : no_element (VStr "title")
                   [nth 0 (elements lower_third) [];
                    nth 1 (elements lower_third) []]).
  { intros el [<- | [<- | []]]; reflexivity. }
  assert (Hnone : no_element (VStr "missing") (elements lower_third)).
  { intros el [<- | [<- | [<- | []]]]; reflexivity. }
  destruct (updateElement_first_match (VStr "title") [("x", VNum 5)] lower_third)
    as [_ H].
  destruct (H [nth 0 (elements lower_third) []; nth 1 (elements lower_third) []]
              (nth 2 (elements lower_third) []) [] eq_refl Hpre eq_refl)
    as [Hels _].
  split; [exact Hpre |]. split.
  - rewrite Hels. reflexivity.
  - exact (proj1 (updateElement_first_match (VStr "missing") [("x", VNum 5)]
                    lower_third) Hnone).
Defined.

Lemma filter_no_element : forall elementId els,
  no_element elementId els ->
  filter (fun el => negb (strict_eq (field "id" el) elementId)) els = els.
Proof.
  intros elementId els H. induction els as [| e r IH]; [reflexivity |].
  cbn [filter]. rewrite (H e (or_introl eq_refl)). cbn [negb]. f_equal.
  apply IH. intros x Hx. apply H. right. exact Hx.
Qed.

(** [removeElement] keeps, in their order, exactly the elements whose id is
    not the given one: every element with the id goes, also when several
    have it; afterwards [getElementById] finds nothing under the id; and an
    id that no element has leaves the template as it is. *)
Theorem removeElement_removes_every_match : forall elementId t,
  elements (removeElement elementId t)
  = filter (fun el => negb (strict_eq (field "id" el) elementId)) (elements t)
  /\ (forall el, In el (elements (removeElement elementId t))
                 <-> In el (elements t)
                     /\ strict_eq (field "id" el) elementId = false)
  /\ getElementById elementId (removeElement elementId t) = None
  /\ (no_element elementId (elements t) -> removeElement elementId t = t).
Proof.
  intros elementId t.
  assert (Hin : forall el, In el (elements (removeElement elementId t))
                           <-> In el (elements t)
                               /\ strict_eq (field "id" el) elementId = false).
  { intro el. unfold removeElement. cbn [elements set_elements].
    rewrite filter_In. rewrite Bool.negb_true_iff. reflexivity. }
  split; [reflexivity |]. split; [exact Hin |]. split.
  - unfold getElementById. apply find_none_no_element.
    intros el Hel. apply Hin in Hel. apply Hel.
  - intro Hnone. unfold removeElement. rewrite (filter_no_element _ _ Hnone).
    destruct t; reflexivity.
Qed.

Lemma removeElement_removes_every_match_witness :
  no_element (VStr "missing") (elements lower_third)
  /\ removeElement (VStr "missing") lower_third = lower_third.
Proof.
  assert (Hnone : no_element (VStr "missing") (elements lower_third)).
  { intros el [<- | [<- | [<- | []]]]; reflexivity. }
  split; [exact Hnone |].
  exact (proj2 (proj2 (proj2 (removeElement_removes_every_match
                                (VStr "missing") lower_third))) Hnone).
Defined.

(** *** Schema properties *)










End ModelLaws.

(** ** Names: [kebabCase] and [toCamelCase] *)


Lemma upper_char_spec : forall c,
  is_lower c = true ->
  is_lower (upper_char c) = false /\ Ascii.eqb (upper_char c) "-" = false.
Proof.
  intro c. destruct c as [[] [] [] [] [] [] [] []];
    intro H; try discriminate H; split; reflexivity.
Qed.





Lemma camel_hyphens_plain : forall s,
  lacks "-" s = true -> camel_hyphens s = s.
Proof.
  assert (H : forall s,
             (lacks "-" s = true -> camel_hyphens s = s)
             /\ forall c, lacks "-" (String c s) = true ->
                          camel_hyphens (String c s) = String c s).
  { induction s as [| d t [IH1 IH2]].
    - split; [reflexivity | intros c _; reflexivity].
    - split; [apply IH2 |]. intros c Hc.
      cbn [lacks] in Hc. apply Bool.andb_true_iff in Hc.
      destruct Hc as [Hc Hd]. apply Bool.negb_true_iff in Hc.
      change (camel_hyphens (String c (String d t)))
        with (if (Ascii.eqb c "-" && is_lower d)%bool
              then String (upper_char d) (camel_hyphens t)
              else String c (camel_hyphens (String d t))).
      rewrite Hc. cbn [andb]. rewrite (IH2 d Hd). reflexivity. }
  intro s. apply (H s).
Qed.

(** The first character of what [camel_hyphens] gives, when the text starts
    with a character that is not a lower-case letter. *)
Lemma camel_hyphens_head : forall d t,
  is_lower d = false ->
  match camel_hyphens (String d t) with
  | String x _ => is_lower x = false
  | EmptyString => True
  end.
Proof.
  intros d t Hd. destruct t as [| e t']; [exact Hd |].
  change (camel_hyphens (String d (String e t')))
    with (if (Ascii.eqb d "-" && is_lower e)%bool
          then String (upper_char e) (camel_hyphens t')
          else String d (camel_hyphens (String e t'))).
  destruct (Ascii.eqb d "-" && is_lower e)%bool eqn:E; [| exact Hd].
  apply Bool.andb_true_iff in E. apply upper_char_spec. apply E.
Qed.

Lemma camel_hyphens_clean : forall s,
  no_hyphen_before_lower (camel_hyphens s) = true.
Proof.
  assert (H : forall s,
             no_hyphen_before_lower (camel_hyphens s) = true
             /\ forall c, no_hyphen_before_lower (camel_hyphens (String c s))
                          = true).
  { induction s as [| d t [IH1 IH2]].
    - split; [reflexivity | intro c; reflexivity].
    - split; [apply IH2 |]. intro c.
      change (camel_hyphens (String c (String d t)))
        with (if (Ascii.eqb c "-" && is_lower d)%bool
              then String (upper_char d) (camel_hyphens t)
              else String c (camel_hyphens (String d t))).
      destruct (Ascii.eqb c "-" && is_lower d)%bool eqn:E.
      + apply Bool.andb_true_iff in E. destruct E as [_ Hd].
        destruct (upper_char_spec d Hd) as [_ Hh].
        cbn [no_hyphen_before_lower]. rewrite IH1, Hh.
        destruct (camel_hyphens t); reflexivity.
      + cbn [no_hyphen_before_lower]. rewrite (IH2 d).
        destruct (Ascii.eqb c "-") eqn:Ec.
        * cbn [andb] in E.
          pose proof (camel_hyphens_head d t E) as Hh.
          destruct (camel_hyphens (String d t)) as [| x r]; [reflexivity |].
          rewrite Hh. reflexivity.
        * destruct (camel_hyphens (String d t)); reflexivity. }
  intro s. apply (H s).
Qed.

(** [toCamelCase]: the result never starts with a lower-case letter and
    never has a hyphen before a lower-case letter; a text without hyphen is
    only capitalised, so an underscore separates nothing. *)
Theorem toCamelCase_shape : forall s,
  no_hyphen_before_lower (toCamelCase s) = true
  /\ match toCamelCase s with
     | String c _ => is_lower c = false
     | EmptyString => True
     end
  /\ (lacks "-" s = true -> toCamelCase s = camel_first s).
Proof.
  intro s. unfold toCamelCase.
  pose proof (camel_hyphens_clean s) as Hclean.
  split; [| split].
  - destruct (camel_hyphens s) as [| c r]; [reflexivity |].
    cbn [camel_first]. destruct (is_lower c) eqn:Hc; [| exact Hclean].
    cbn [no_hyphen_before_lower] in Hclean |- *.
    apply Bool.andb_true_iff in Hclean. destruct Hclean as [_ Hr].
    rewrite Hr, (proj2 (upper_char_spec c Hc)).
    destruct r; reflexivity.
  - destruct (camel_hyphens s) as [| c r]; [exact I |].
    cbn [camel_first]. destruct (is_lower c) eqn:Hc; [| exact Hc].
    apply upper_char_spec. exact Hc.
  - intro H. rewrite (camel_hyphens_plain s H). reflexivity.
Qed.

Lemma toCamelCase_shape_witness :
  lacks "-" "lower_third" = true /\ toCamelCase "lower_third" = "Lower_third".
Proof.
  split; [reflexivity |].
  exact (proj2 (proj2 (toCamelCase_shape "lower_third")) eq_refl).
Defined.

(** ** The generated component and those who check it *)

Lemma startsWith_append : forall p a b,
  startsWith a p = true -> startsWith (a ++ b) p = true.
Proof.
  induction p as [| x p IH]; intros a b H; [reflexivity |].
  destruct a as [| y a]; [discriminate |].
  cbn [startsWith String.append] in H |- *.
  destruct (Ascii.eqb x y); [apply IH; exact H | discriminate].
Qed.

Lemma includes_append_l : forall a b p,
  includes a p = true -> includes (a ++ b) p = true.
Proof.
  induction a as [| c a IH]; intros b p H.
  - cbn [includes] in H. rewrite Bool.orb_false_r in H.
    destruct p; [destruct b; reflexivity | discriminate].
  - cbn [includes] in H.
    change (String c a ++ b) with (String c (a ++ b)). cbn [includes].
    apply Bool.orb_true_iff in H. apply Bool.orb_true_iff.
    destruct H as [H | H].
    + left. exact (startsWith_append p (String c a) b H).
    + right. apply IH. exact H.
Qed.

Lemma includes_append_r : forall a b p,
  includes b p = true -> includes (a ++ b) p = true.
Proof.
  induction a as [| c a IH]; intros b p H; [exact H |].
  change (String c a ++ b) with (String c (a ++ b)). cbn [includes].
  rewrite (IH b p H). apply Bool.orb_true_r.
Qed.

(** The generated text has the head of the class in it and the methods of
    the graphics API, whatever the template. *)
Lemma component_text_includes : forall t p,
  includes OGrafTemplate.src_constructor p = true
  \/ includes OGrafTemplate.src_lifecycle p = true ->
  includes (OGrafTemplate.component_text t) p = true.
Proof.
  intros t p H. rewrite component_text_eq.
  apply includes_append_r, includes_append_r.
  destruct H as [H | H]; [apply includes_append_l; exact H |].
  do 6 apply includes_append_r. apply includes_append_l. exact H.
Qed.

(** Whatever the template, the text that [generateWebComponent] gives is not
    empty, the code editor finds no error in it, [isValidComponentCode]
    accepts it (so an import keeps it), and [exportTemplate] on the template
    that holds it returns it without generating again. *)
Theorem generated_component_is_accepted : forall t,
  CodeEditor.component_errors (OGrafTemplate.component_text t) = []
  /\ CodeEditor.validateCode_component (OGrafTemplate.component_text t) = true
  /\ TemplateManager.isValidComponentCode
       (VStr (OGrafTemplate.component_text t)) = true
  /\ exportTemplate_component (fst (OGrafTemplate.generateWebComponent t))
     = (fst (OGrafTemplate.generateWebComponent t),
        OGrafTemplate.component_text t).
Proof.
  intro t.
  assert (Hh : includes (OGrafTemplate.component_text t) "HTMLElement" = true).
  { apply component_text_includes. left. vm_compute. reflexivity. }
  assert (Hm : forall m,
             In m ["load"; "dispose"; "playAction"; "stopAction"; "updateAction"] ->
             includes (OGrafTemplate.component_text t) m = true).
  { intros m Hin. apply component_text_includes. right.
    cbn [In] in Hin.
    destruct Hin as [<- | [<- | [<- | [<- | [<- | []]]]]];
      vm_compute; reflexivity. }
  assert (Hc : includes (OGrafTemplate.component_text t) "class" = true).
  { rewrite component_text_eq. apply includes_append_l.
    vm_compute. reflexivity. }
  assert (He : CodeEditor.component_errors (OGrafTemplate.component_text t) = []).
  { unfold CodeEditor.component_errors. rewrite Hh. cbn [negb flat_map app].
    rewrite !Hm by (cbn [In]; auto 6). reflexivity. }
  assert (Hs : exists c s, OGrafTemplate.component_text t = String c s).
  { rewrite component_text_eq. eexists. eexists. reflexivity. }
  destruct Hs as [c [s Hs]].
  split; [exact He |].
  split; [unfold CodeEditor.validateCode_component; rewrite He; reflexivity |].
  split.
  - rewrite Hs in Hh, Hc, Hm |- *. cbn [TemplateManager.isValidComponentCode].
    rewrite Hh, Hc, (Hm "load") by (cbn [In]; auto).
    rewrite Bool.orb_true_r. reflexivity.
  - unfold exportTemplate_component, OGrafTemplate.generateWebComponent.
    cbn [fst OGrafTemplate.webComponent OGrafTemplate.set_webComponent].
    rewrite Hs. reflexivity.
Qed.

(** ** The visual editor and the validation of a template *)

Section EditorLaws.

Import OGrafTemplate.

Lemma added_element_id : forall type now,
  field "id"
    (obj_assign [("id", VStr ("element_" ++ of_Z now))]
       (VisualEditor.element_of_type type))
  = VStr ("element_" ++ of_Z now).
Proof. reflexivity. Qed.

Lemma element_ids_addElement : forall type now t,
  element_ids (fst (VisualEditor.addElement type now t))
  = (element_ids t ++ [VStr ("element_" ++ of_Z now)])%list.
Proof.
  intros type now t. unfold VisualEditor.addElement, addElement, element_ids.
  cbn [fst elements set_elements]. rewrite map_app. cbn [map].
  rewrite added_element_id. reflexivity.
Qed.

(** The id of an element added from the toolbar is [element_<now>], and it
    becomes the selection.  The ids stay distinct when they were and the new
    id is not in use.  A second element added in the same millisecond gets
    the same id: the ids are no longer distinct, and deleting the selected
    element removes both. *)
Theorem addElement_timestamp_ids : forall type now t,
  snd (VisualEditor.addElement type now t) = VStr ("element_" ++ of_Z now)
  /\ element_ids (fst (VisualEditor.addElement type now t))
     = (element_ids t ++ [VStr ("element_" ++ of_Z now)])%list
  /\ (NoDup (element_ids t) ->
      ~ In (VStr ("element_" ++ of_Z now)) (element_ids t) ->
      NoDup (element_ids (fst (VisualEditor.addElement type now t))))
  /\ forall type2,
       snd (VisualEditor.addElement type2 now
              (fst (VisualEditor.addElement type now t)))
       = VStr ("element_" ++ of_Z now)
       /\ ~ NoDup (element_ids
                     (fst (VisualEditor.addElement type2 now
                             (fst (VisualEditor.addElement type now t)))))
       /\ (no_element (VStr ("element_" ++ of_Z now)) (elements t) ->
           VisualEditor.deleteSelectedElement
             (VStr ("element_" ++ of_Z now))
             (fst (VisualEditor.addElement type2 now
                     (fst (VisualEditor.addElement type now t))))
           = (t, VNull)).
Proof.
  intros type now t.
  assert (Hsel : forall ty u,
             snd (VisualEditor.addElement ty now u)
             = VStr ("element_" ++ of_Z now)).
  { intros ty u. unfold VisualEditor.addElement, addElement.
    cbn [snd elements set_elements]. rewrite last_last.
    apply added_element_id. }
  split; [apply Hsel |]. split; [apply element_ids_addElement |]. split.
  { intros Hnd Hnot. rewrite element_ids_addElement.
    apply NoDup_app; [exact Hnd | repeat constructor; intros [] |].
    intros x Hx [<- | []]. exact (Hnot Hx). }
  intro type2. split; [apply Hsel |]. split.
  - rewrite !element_ids_addElement. rewrite <- app_assoc. cbn [app].
    intro Hnd. apply NoDup_remove_2 in Hnd. apply Hnd.
    apply in_or_app. right. left. reflexivity.
  - intro Hnone. unfold VisualEditor.deleteSelectedElement.
    change (truthy (VStr ("element_" ++ of_Z now))) with true.
    cbv iota. f_equal.
    unfold VisualEditor.addElement, addElement, removeElement.
    cbn [fst elements set_elements manifest webComponent animationSettings].
    rewrite <- app_assoc. cbn [app]. rewrite filter_app.
    rewrite (filter_no_element _ _ Hnone). cbn [filter].
    rewrite !added_element_id. cbn [strict_eq].
    rewrite String.eqb_refl. cbn [negb]. rewrite app_nil_r.
    destruct t; reflexivity.
Qed.

Lemma addElement_timestamp_ids_witness :
  NoDup (element_ids lower_third)
  /\ ~ In (VStr ("element_" ++ of_Z 1700000000000)) (element_ids lower_third)
  /\ no_element (VStr ("element_" ++ of_Z 1700000000000)) (elements lower_third)
  /\ NoDup (element_ids
              (fst (VisualEditor.addElement "text" 1700000000000 lower_third)))
  /\ VisualEditor.deleteSelectedElement
       (VStr ("element_" ++ of_Z 1700000000000))
       (fst (VisualEditor.addElement "rect" 1700000000000
               (fst (VisualEditor.addElement "text" 1700000000000 lower_third))))
     = (lower_third, VNull).
Proof.
  assert (Hnd : NoDup (element_ids lower_third)).
  { cbn. repeat constructor; cbn; intuition discriminate. }
  assert (Hnot : ~ In (VStr ("element_" ++ of_Z 1700000000000))
                     (element_ids lower_third)).
  { cbn. intuition discriminate. }
  assert (Hnone : no_element (VStr ("element_" ++ of_Z 1700000000000))
                    (elements lower_third)).
  { intros el [<- | [<- | [<- | []]]]; reflexivity. }
  destruct (addElement_timestamp_ids "text" 1700000000000 lower_third)
    as [_ [_ [Hfresh Hsame]]].
  destruct (Hsame "rect") as [_ [_ Hdel]].
  split; [exact Hnd |]. split; [exact Hnot |]. split; [exact Hnone |].
  split; [exact (Hfresh Hnd Hnot) | exact (Hdel Hnone)].
Defined.

(** *** [validateTemplate] *)

Lemma length_zero_nil : forall (A : Type) (l : list A),
  Nat.eqb (List.length l) 0 = true <-> l = [].
Proof. intros A [| x l]; cbn; split; intro H; congruence. Qed.

Lemma elements_errors_app : forall a b index,
  TemplateManager.elements_errors index (a ++ b)
  = (TemplateManager.elements_errors index a
     ++ TemplateManager.elements_errors (index + Z.of_nat (List.length a)) b)%list.
Proof.
  induction a as [| e a IH]; intros b index.
  - cbn. rewrite Z.add_0_r. reflexivity.
  - cbn [app TemplateManager.elements_errors List.length]. rewrite IH.
    rewrite <- app_assoc. do 3 f_equal. lia.
Qed.

(** A template made by [createFromType] passes [validateTemplate] exactly
    when its id and its name are not empty, whatever the type; and a valid
    template stays valid when the editor adds an element of a type that is
    not the empty string. *)
Theorem validateTemplate_of_created : forall type i n d,
  fst (TemplateManager.validateTemplate (createFromType type i n d))
  = (negb (String.eqb i "") && negb (String.eqb n ""))%bool
  /\ forall t type2 now,
       type2 <> "" ->
       fst (TemplateManager.validateTemplate t) = true ->
       fst (TemplateManager.validateTemplate
              (fst (VisualEditor.addElement type2 now t))) = true.
Proof.
  intros type i n d. split.
  - unfold createFromType.
    destruct (String.eqb type "lower-third");
      [| destruct (String.eqb type "title");
         [| destruct (String.eqb type "bug")]];
      unfold TemplateManager.validateTemplate,
        TemplateManager.validateTemplate_errors;
      cbn [fst manifest id name main elements setupLowerThird setupTitle
           setupBug setupCustom setup set_elements set_manifest
           with_properties with_actions with_identity constructor];
      destruct (String.eqb i ""), (String.eqb n ""); reflexivity.
  - intros t type2 now Hty Hvalid.
    unfold TemplateManager.validateTemplate in *. cbn [fst] in *.
    apply length_zero_nil in Hvalid. apply length_zero_nil.
    unfold TemplateManager.validateTemplate_errors in *.
    unfold VisualEditor.addElement, addElement.
    cbn [fst manifest elements set_elements].
    destruct (String.eqb (id (manifest t)) ""); [discriminate |].
    destruct (String.eqb (name (manifest t)) ""); [discriminate |].
    destruct (String.eqb (main (manifest t)) ""); [discriminate |].
    cbn [app] in Hvalid |- *.
    rewrite elements_errors_app, Hvalid. cbn [app].
    cbn [TemplateManager.elements_errors]. rewrite app_nil_r.
    unfold TemplateManager.element_errors.
    assert (Htype : truthy (VStr type2) = true).
    { cbn. apply String.eqb_neq in Hty. rewrite Hty. reflexivity. }
    replace (field "type" (obj_assign [("id", VStr ("element_" ++ of_Z now))]
                             (VisualEditor.element_of_type type2)))
      with (VStr type2) by reflexivity.
    rewrite Htype. reflexivity.
Qed.

Lemma validateTemplate_of_created_witness :
  "text" <> ""
  /\ fst (TemplateManager.validateTemplate lower_third) = true
  /\ fst (TemplateManager.validateTemplate
            (fst (VisualEditor.addElement "text" 1700000000000 lower_third)))
     = true.
Proof.
  assert (Hty : "text" <> "") by discriminate.
  assert (Hv : fst (TemplateManager.validateTemplate lower_third) = true)
    by reflexivity.
  split; [exact Hty |]. split; [exact Hv |].
  exact (proj2 (validateTemplate_of_created "custom" "x" "Name" "d")
           lower_third "text" 1700000000000 Hty Hv).
Defined.

End EditorLaws.

(** ** The runtime: updates, transitions and disposal *)

Section RuntimeLaws.

Import Graphic.

(** Text without an opening brace has no placeholder: [interpolateContent]
    returns it as it is, whatever the data. *)
Theorem interpolateContent_plain_text : forall data content,
  lacks "{" content = true ->
  interpolateContent data content = content.
Proof.
  intros data content. unfold interpolateContent.
  induction content as [| c t IH]; intro H; [reflexivity |].
  cbn [lacks] in H. apply andb_prop in H. destruct H as [Hc Ht].
  rewrite replace_from_copy.
  - rewrite (IH Ht). reflexivity.
  - unfold placeholder_at. cbn [strip_prefix String.append].
    rewrite Ascii.eqb_sym.
    destruct (Ascii.eqb c "{"); [discriminate | reflexivity].
Qed.

Lemma interpolateContent_plain_text_witness :
  lacks "{" "Breaking news" = true
  /\ interpolateContent [("name", VStr "Jane")] "Breaking news" = "Breaking news".
Proof.
  assert (H : lacks "{" "Breaking news" = true) by reflexivity.
  split; [exact H |].
  exact (interpolateContent_plain_text [("name", VStr "Jane")] "Breaking news" H).
Defined.




Variable timer_delay : jsval -> N.




End RuntimeLaws.




(** ** The template manager *)

Section ManagerLaws.

Import TemplateManager.

Local Open Scope nat_scope.

Lemma write_same : forall (A : Type) a (x : A) f, Store.write a x f a = x.
Proof. intros. unfold Store.write. rewrite Nat.eqb_refl. reflexivity. Qed.

Lemma write_other : forall (A : Type) a b (x : A) f,
  b <> a -> Store.write a x f b = f b.
Proof.
  intros A a b x f H. unfold Store.write.
  apply Nat.eqb_neq in H. rewrite H. reflexivity.
Qed.

Lemma get_set_same : forall k r m, get k (set k r m) = Some r.
Proof.
  intros k r m. induction m as [| [k' r'] rest IH]; cbn.
  - rewrite String.eqb_refl. reflexivity.
  - destruct (String.eqb k k') eqn:E; cbn; rewrite E; [reflexivity | exact IH].
Qed.

Lemma get_set_other : forall k k' r m,
  k <> k' -> get k (set k' r m) = get k m.
Proof.
  intros k k' r m Hne. induction m as [| [k2 r2] rest IH]; cbn.
  - apply String.eqb_neq in Hne. rewrite Hne. reflexivity.
  - destruct (String.eqb k' k2) eqn:E; cbn.
    + apply String.eqb_eq in E. subst k2.
      apply String.eqb_neq in Hne. rewrite Hne. reflexivity.
    + rewrite IH. reflexivity.
Qed.

Lemma get_delete_same : forall k m, get k (delete k m) = None.
Proof.
  intros k m. induction m as [| [k' r'] rest IH]; cbn; [reflexivity |].
  destruct (String.eqb k k') eqn:E; cbn; [exact IH |].
  rewrite E. exact IH.
Qed.

Lemma get_delete_other : forall k k' m,
  k <> k' -> get k (delete k' m) = get k m.
Proof.
  intros k k' m Hne. unfold delete.
  induction m as [| [k2 r2] rest IH]; cbn; [reflexivity |].
  destruct (String.eqb k' k2) eqn:E; cbn.
  - apply String.eqb_eq in E. subst k2.
    apply String.eqb_neq in Hne. rewrite Hne. exact IH.
  - rewrite IH. reflexivity.
Qed.

Lemma get_In : forall k r m, get k m = Some r -> In (k, r) m.
Proof.
  intros k r m. induction m as [| [k' r'] rest IH]; cbn; [discriminate |].
  destruct (String.eqb_spec k k') as [-> | Hne].
  - intros [= ->]. left. reflexivity.
  - intro H. right. exact (IH H).
Qed.

Lemma In_set : forall p k r m, In p (set k r m) -> snd p = r \/ In p m.
Proof.
  intros p k r m. induction m as [| [k' r'] rest IH]; cbn.
  - intros [<- | []]. left. reflexivity.
  - destruct (String.eqb k k'); cbn.
    + intros [<- | H]; [left; reflexivity | right; right; exact H].
    + intros [<- | H]; [right; left; reflexivity |].
      destruct (IH H) as [H1 | H1]; [left; exact H1 | right; right; exact H1].
Qed.

Lemma allocated_bounds : forall s r,
  Store.allocated s r = true ->
  r < Store.fresh s
  /\ Store.manifest_at (Store.instances s r) < Store.fresh s
  /\ Store.elements_at (Store.instances s r) < Store.fresh s.
Proof.
  intros s r H. unfold Store.allocated in H.
  apply andb_prop in H. destruct H as [H H3].
  apply andb_prop in H. destruct H as [H1 H2].
  apply Nat.ltb_lt in H1, H2, H3. auto.
Qed.

Lemma well_formed_get : forall m id r,
  well_formed m = true ->
  get id (templates m) = Some r ->
  Store.allocated (objects m) r = true.
Proof.
  intros m id r H Hg. unfold well_formed in H.
  apply andb_prop in H. destruct H as [H _].
  rewrite forallb_forall in H. exact (H _ (get_In _ _ _ Hg)).
Qed.

Lemma well_formed_current : forall m r,
  well_formed m = true ->
  currentTemplate m = Some r ->
  Store.allocated (objects m) r = true.
Proof.
  intros m r H Hc. unfold well_formed in H.
  apply andb_prop in H. destruct H as [_ H]. rewrite Hc in H. exact H.
Qed.

(** A store that grows: what was allocated stays allocated when the
    instances below the old bound are kept. *)
Lemma allocated_grows : forall s s' r,
  Store.allocated s r = true ->
  Store.fresh s <= Store.fresh s' ->
  Store.instances s' r = Store.instances s r ->
  Store.allocated s' r = true.
Proof.
  intros s s' r H Hle Hi. destruct (allocated_bounds _ _ H) as [H1 [H2 H3]].
  unfold Store.allocated. rewrite Hi.
  apply andb_true_intro. split; [apply andb_true_intro; split |];
    apply Nat.ltb_lt; lia.
Qed.

Lemma well_formed_intro : forall m,
  (forall p, In p (templates m) -> Store.allocated (objects m) (snd p) = true) ->
  (forall r, currentTemplate m = Some r -> Store.allocated (objects m) r = true) ->
  well_formed m = true.
Proof.
  intros m Ht Hc. unfold well_formed. apply andb_true_intro. split.
  - apply forallb_forall. exact Ht.
  - destruct (currentTemplate m) as [r |]; [apply Hc; reflexivity | reflexivity].
Qed.

Lemma well_formed_In : forall m p,
  well_formed m = true -> In p (templates m) ->
  Store.allocated (objects m) (snd p) = true.
Proof.
  intros m p H Hin. unfold well_formed in H.
  apply andb_prop in H. destruct H as [H _].
  rewrite forallb_forall in H. exact (H _ Hin).
Qed.

(** [createTemplate] refuses an id that is in use and changes nothing then.
    With a new id it makes the template that [createFromType] builds, files
    it under the id and makes it current; the templates under the other ids
    are what they were; and [deleteTemplate] of the id then takes it out of
    the map and clears [currentTemplate]. *)
Theorem createTemplate_registers : forall type id name description m,
  well_formed m = true ->
  (has id (templates m) = true ->
   createTemplate type id name description m = Throws (already_exists id))
  /\ (has id (templates m) = false ->
      exists m' template,
        createTemplate type id name description m = Returns (m', template)
        /\ getTemplate id m' = Some template
        /\ getCurrentTemplate m' = Some template
        /\ template_at m' template
           = OGrafTemplate.createFromType type id name description
        /\ well_formed m' = true
        /\ (forall other r,
              other <> id ->
              getTemplate other m = Some r ->
              getTemplate other m' = Some r
              /\ template_at m' r = template_at m r)
        /\ snd (deleteTemplate id m') = true
        /\ getTemplate id (fst (deleteTemplate id m')) = None
        /\ getCurrentTemplate (fst (deleteTemplate id m')) = None).
Proof.
  intros type id name description m Hwf. split; intro Hhas.
  - unfold createTemplate. rewrite Hhas. reflexivity.
  - unfold createTemplate. rewrite Hhas. cbn [Store.allocate].
    eexists. eexists. split; [reflexivity |].
    assert (Hview :
      Store.template_of
        (fst (Store.allocate
                (OGrafTemplate.createFromType type id name description)
                (objects m))) (Store.fresh (objects m))
      = OGrafTemplate.createFromType type id name description).
    { unfold Store.template_of. cbn [Store.allocate fst Store.instances
        Store.manifests Store.arrays].
      rewrite !write_same. cbn [Store.manifest_at Store.elements_at
        Store.webComponent Store.animationSettings].
      rewrite ?write_same.
      destruct (OGrafTemplate.createFromType type id name description);
        reflexivity. }
    cbn [Store.allocate fst] in Hview.
    split; [apply get_set_same |]. split; [reflexivity |].
    split; [exact Hview |].
    assert (Hold : forall r,
              Store.allocated (objects m) r = true ->
              Store.allocated
                (fst (Store.allocate
                        (OGrafTemplate.createFromType type id name description)
                        (objects m))) r = true
              /\ Store.template_of
                   (fst (Store.allocate
                           (OGrafTemplate.createFromType type id name
                              description) (objects m))) r
                 = Store.template_of (objects m) r).
    { intros r Hr. destruct (allocated_bounds _ _ Hr) as [H1 [H2 H3]].
      assert (Hi : Store.instances
                     (fst (Store.allocate
                             (OGrafTemplate.createFromType type id name
                                description) (objects m))) r
                   = Store.instances (objects m) r).
      { cbn [Store.allocate fst Store.instances]. apply write_other. lia. }
      split.
      - apply (allocated_grows (objects m)); [exact Hr | cbn; lia | exact Hi].
      - unfold Store.template_of. rewrite Hi.
        cbn [Store.allocate fst Store.manifests Store.arrays].
        rewrite !write_other by lia. reflexivity. }
    cbn [Store.allocate fst] in Hold.
    assert (Hnew : Store.allocated
                     (fst (Store.allocate
                             (OGrafTemplate.createFromType type id name
                                description) (objects m)))
                     (Store.fresh (objects m)) = true).
    { unfold Store.allocated.
      cbn [Store.allocate fst Store.instances Store.fresh].
      rewrite write_same. cbn [Store.manifest_at Store.elements_at].
      assert (H : Nat.ltb (Store.fresh (objects m)) (S (Store.fresh (objects m)))
                  = true) by (apply Nat.ltb_lt; lia).
      rewrite H. reflexivity. }
    cbn [Store.allocate fst] in Hnew.
    split.
    { apply well_formed_intro; cbn [templates objects currentTemplate].
      - intros p Hin. destruct (In_set _ _ _ _ Hin) as [-> | Hin'].
        + exact Hnew.
        + apply Hold. exact (well_formed_In m p Hwf Hin').
      - intros r [= <-]. exact Hnew. }
    split.
    { intros other r Hne Hg. unfold getTemplate, template_at in *.
      cbn [templates objects]. split.
      - rewrite get_set_other by exact Hne. exact Hg.
      - apply Hold. exact (well_formed_get m other r Hwf Hg). }
    unfold deleteTemplate, has. cbn [templates objects currentTemplate].
    rewrite get_set_same. cbn [fst snd]. split; [reflexivity |].
    unfold getTemplate, getCurrentTemplate.
    cbn [templates currentTemplate]. split; [apply get_delete_same |].
    unfold template_at in Hview. cbn [objects] in Hview. rewrite Hview.
    assert (Hid : OGrafTemplate.id
                    (OGrafTemplate.manifest
                       (OGrafTemplate.createFromType type id name description))
                  = id).
    { unfold OGrafTemplate.createFromType.
      destruct (String.eqb type "lower-third");
        [| destruct (String.eqb type "title");
           [| destruct (String.eqb type "bug")]]; reflexivity. }
    rewrite Hid, String.eqb_refl. reflexivity.
Qed.

(** The store after [duplicateTemplate]. *)
Lemma duplicate_objects : forall s original newId newName,
  Store.allocated s original = true ->
  let s' :=
    Store.set_webComponent None (Store.fresh s)
      (Store.rename newId newName (Store.fresh s)
         (fst (Store.fromJSON_toJSON original s))) in
  (forall r, r <> Store.fresh s -> Store.instances s' r = Store.instances s r)
  /\ Store.instances s' (Store.fresh s)
     = {| Store.manifest_at := Store.manifest_at (Store.instances s original);
          Store.elements_at := Store.elements_at (Store.instances s original);
          Store.webComponent := None;
          Store.animationSettings := VUndef |}
  /\ Store.manifests s'
     = Store.write (Store.manifest_at (Store.instances s original))
         (OGrafTemplate.with_identity newId newName
            (OGrafTemplate.description
               (Store.manifests s
                  (Store.manifest_at (Store.instances s original))))
            (Store.manifests s
               (Store.manifest_at (Store.instances s original))))
         (Store.manifests s)
  /\ Store.arrays s' = Store.arrays s
  /\ Store.fresh s' = S (Store.fresh s).
Proof.
  intros s original newId newName Ha.
  destruct (allocated_bounds _ _ Ha) as [H1 _].
  cbv zeta. unfold Store.set_webComponent, Store.rename, Store.fromJSON_toJSON.
  cbn [fst Store.instances Store.manifests Store.arrays Store.fresh].
  rewrite !write_same.
  cbn [Store.manifest_at Store.elements_at Store.webComponent
       Store.animationSettings].
  split.
  - intros r Hr. rewrite !write_other by exact Hr. reflexivity.
  - repeat split.
Qed.

(** [duplicateTemplate] makes a second template object that holds the
    manifest and the element array of the original, the same objects.  The
    new id and the new name are therefore written into the original too,
    which stays filed under its old id; an element or a schema property
    added to the copy is added to the original; the arrays part only when
    [removeElement] gives the copy an array of its own. *)
Theorem duplicateTemplate_shares_the_original :
  forall id newId newName m original,
  well_formed m = true ->
  getTemplate id m = Some original ->
  getTemplate newId m = None ->
  exists m' copy,
    duplicateTemplate id newId newName m = Returns (m', copy)
    /\ copy <> original
    /\ getTemplate newId m' = Some copy
    /\ getTemplate id m' = Some original
    /\ getCurrentTemplate m' = getCurrentTemplate m
    /\ well_formed m' = true
    /\ template_at m' original
       = OGrafTemplate.set_manifest
           (OGrafTemplate.with_identity newId newName
              (OGrafTemplate.description
                 (OGrafTemplate.manifest (template_at m original)))
              (OGrafTemplate.manifest (template_at m original)))
           (template_at m original)
    /\ template_at m' copy
       = OGrafTemplate.set_webComponent None
           (OGrafTemplate.fromJSON
              (OGrafTemplate.toJSON (template_at m' original)))
    /\ (forall now element,
          template_at (on_template (Store.addElement now element) copy m')
            original
          = OGrafTemplate.addElement now element (template_at m' original))
    /\ (forall n ty ti defaultValue,
          template_at
            (on_template (Store.addProperty n ty ti defaultValue) copy m')
            original
          = OGrafTemplate.addProperty n ty ti defaultValue
              (template_at m' original))
    /\ (forall elementId now element,
          template_at
            (on_template (Store.addElement now element) copy
               (on_template (Store.removeElement elementId) copy m'))
            original
          = template_at m' original).
Proof.
  intros id newId newName m original Hwf Hget Hnew.
  unfold getTemplate in Hget, Hnew.
  assert (Ha := well_formed_get m id original Hwf Hget).
  destruct (allocated_bounds _ _ Ha) as [H1 [H2 H3]].
  assert (Hne : id <> newId) by (intros ->; congruence).
  unfold duplicateTemplate, has. rewrite Hget, Hnew.
  cbn [Store.fromJSON_toJSON].
  eexists. eexists. split; [reflexivity |].
  destruct (duplicate_objects (objects m) original newId newName Ha)
    as [Hi [Hcopy [Hm [Harr Hfresh]]]].
  cbn [Store.fromJSON_toJSON fst] in Hi, Hcopy, Hm, Harr, Hfresh.
  assert (Ho : forall r, r < Store.fresh (objects m) ->
                         r <> Store.fresh (objects m)) by (intros; lia).
  split; [lia |].
  unfold getTemplate, getCurrentTemplate, template_at, on_template.
  cbn [templates objects currentTemplate].
  split; [apply get_set_same |].
  split; [rewrite get_set_other by exact Hne; exact Hget |].
  split; [reflexivity |].
  split.
  { apply well_formed_intro; cbn [templates objects currentTemplate].
    - intros p Hin. destruct (In_set _ _ _ _ Hin) as [-> | Hin'].
      + unfold Store.allocated. rewrite Hcopy, Hfresh.
        cbn [Store.manifest_at Store.elements_at].
        apply andb_true_intro. split; [apply andb_true_intro; split |];
          apply Nat.ltb_lt; lia.
      + assert (Hp := well_formed_In m p Hwf Hin').
        destruct (allocated_bounds _ _ Hp) as [Hp1 _].
        apply (allocated_grows (objects m)); [exact Hp | lia |].
        apply Hi. lia.
    - intros r Hr. assert (Hp := well_formed_current m r Hwf Hr).
      destruct (allocated_bounds _ _ Hp) as [Hp1 _].
      apply (allocated_grows (objects m)); [exact Hp | lia |].
      apply Hi. lia. }
  assert (Horig :
    Store.template_of
      (Store.set_webComponent None (Store.fresh (objects m))
         (Store.rename newId newName (Store.fresh (objects m))
            {| Store.manifests := Store.manifests (objects m);
               Store.arrays := Store.arrays (objects m);
               Store.instances :=
                 Store.write (Store.fresh (objects m))
                   {| Store.manifest_at :=
                        Store.manifest_at (Store.instances (objects m) original);
                      Store.elements_at :=
                        Store.elements_at (Store.instances (objects m) original);
                      Store.webComponent :=
                        Store.webComponent (Store.instances (objects m) original);
                      Store.animationSettings :=
                        OGrafTemplate.animationSettings OGrafTemplate.constructor |}
                   (Store.instances (objects m));
               Store.fresh := S (Store.fresh (objects m)) |})) original
    = OGrafTemplate.set_manifest
        (OGrafTemplate.with_identity newId newName
           (OGrafTemplate.description
              (OGrafTemplate.manifest (Store.template_of (objects m) original)))
           (OGrafTemplate.manifest (Store.template_of (objects m) original)))
        (Store.template_of (objects m) original)).
  { unfold Store.template_of at 1. rewrite Hm, Harr, (Hi original (Ho _ H1)).
    rewrite write_same. reflexivity. }
  split; [exact Horig |].
  split.
  { rewrite Horig. unfold Store.template_of at 1. rewrite Hm, Harr, Hcopy.
    cbn [Store.manifest_at Store.elements_at Store.webComponent
         Store.animationSettings].
    rewrite write_same. reflexivity. }
  split.
  { intros now element. rewrite Horig.
    unfold Store.template_of at 1. unfold Store.addElement.
    cbn [Store.manifests Store.arrays Store.instances].
    rewrite Hcopy, Hm, (Hi original (Ho _ H1)).
    cbn [Store.elements_at]. rewrite !write_same.
    unfold Store.template_of at 1. rewrite Hcopy, Hm, Harr.
    cbn [Store.manifest_at Store.elements_at Store.webComponent
         Store.animationSettings].
    reflexivity. }
  split.
  { intros n ty ti defaultValue. rewrite Horig.
    unfold Store.template_of at 1. unfold Store.addProperty.
    cbn [Store.manifests Store.arrays Store.instances].
    rewrite Hcopy, Harr, (Hi original (Ho _ H1)).
    cbn [Store.manifest_at]. rewrite !write_same.
    unfold Store.template_of at 1. rewrite Hcopy, Hm, Harr.
    cbn [Store.manifest_at Store.elements_at Store.webComponent
         Store.animationSettings].
    rewrite write_same. reflexivity. }
  intros elementId now element. rewrite Horig.
  unfold Store.template_of at 1.
  unfold Store.addElement, Store.removeElement.
  cbn [Store.manifests Store.arrays Store.instances Store.fresh].
  rewrite !write_same. cbn [Store.elements_at].
  rewrite Hfresh, Hm, Harr.
  rewrite (write_other _ _ original) by lia.
  rewrite (Hi original (Ho _ H1)).
  rewrite write_same.
  rewrite !(write_other _ (S (Store.fresh (objects m)))) by lia.
  reflexivity.
Qed.

(** After [duplicateTemplate] the original carries the id of the copy.
    When the original is current, [deleteTemplate] of its own id takes it
    out of the map and leaves it current, and [deleteTemplate] of the copy's
    id clears [currentTemplate] while the original stays in the map. *)
Theorem deleteTemplate_after_duplicate :
  forall id newId newName m original,
  well_formed m = true ->
  getTemplate id m = Some original ->
  getTemplate newId m = None ->
  getCurrentTemplate m = Some original ->
  getTemplate id
    (fst (deleteTemplate id (after (duplicateTemplate id newId newName m) m)))
  = None
  /\ getCurrentTemplate
       (fst (deleteTemplate id (after (duplicateTemplate id newId newName m) m)))
     = Some original
  /\ getTemplate id
       (fst (deleteTemplate newId
               (after (duplicateTemplate id newId newName m) m)))
     = Some original
  /\ getCurrentTemplate
       (fst (deleteTemplate newId
               (after (duplicateTemplate id newId newName m) m)))
     = None.
Proof.
  intros id newId newName m original Hwf Hget Hnew Hcur.
  unfold getTemplate, getCurrentTemplate in *.
  assert (Ha := well_formed_get m id original Hwf Hget).
  destruct (allocated_bounds _ _ Ha) as [H1 _].
  assert (Hne : id <> newId) by (intros ->; congruence).
  assert (Hne' : newId <> id) by congruence.
  destruct (duplicate_objects (objects m) original newId newName Ha)
    as [Hi [_ [Hm _]]].
  cbn [Store.fromJSON_toJSON fst] in Hi, Hm.
  unfold duplicateTemplate, has. rewrite Hget, Hnew.
  cbn [Store.fromJSON_toJSON after].
  unfold deleteTemplate, has. cbn [templates objects currentTemplate].
  rewrite get_set_same, (get_set_other id newId) by exact Hne.
  rewrite Hget, Hcur. cbn [fst templates currentTemplate].
  unfold Store.template_of. cbn [OGrafTemplate.manifest].
  rewrite Hm, (Hi original) by lia. rewrite write_same.
  cbn [OGrafTemplate.with_identity OGrafTemplate.id].
  rewrite String.eqb_refl.
  apply String.eqb_neq in Hne'. rewrite Hne'.
  apply String.eqb_neq in Hne'.
  split; [apply get_delete_same |]. split; [reflexivity |].
  split; [| reflexivity].
  rewrite get_delete_other by exact Hne.
  rewrite get_set_other by exact Hne. exact Hget.
Qed.

End ManagerLaws.

Lemma createTemplate_registers_witness :
  TemplateManager.well_formed one_template = true
  /\ TemplateManager.has "x" (TemplateManager.templates one_template) = true
  /\ TemplateManager.has "y" (TemplateManager.templates one_template) = false
  /\ TemplateManager.createTemplate "bug" "x" "Logo" "" one_template
     = TemplateManager.Throws (TemplateManager.already_exists "x")
  /\ exists m' template,
       TemplateManager.createTemplate "bug" "y" "Logo" "" one_template
       = TemplateManager.Returns (m', template)
       /\ TemplateManager.getTemplate "y" m' = Some template.
Proof.
  assert (Hwf : TemplateManager.well_formed one_template = true)
    by (vm_compute; reflexivity).
  assert (Hx : TemplateManager.has "x" (TemplateManager.templates one_template)
               = true) by (vm_compute; reflexivity).
  assert (Hy : TemplateManager.has "y" (TemplateManager.templates one_template)
               = false) by (vm_compute; reflexivity).
  split; [exact Hwf |]. split; [exact Hx |]. split; [exact Hy |].
  split.
  - exact (proj1 (createTemplate_registers "bug" "x" "Logo" "" one_template Hwf)
             Hx).
  - destruct (proj2 (createTemplate_registers "bug" "y" "Logo" "" one_template
                       Hwf) Hy) as [m' [template [Hc [Hg _]]]].
    exists m', template. split; assumption.
Defined.

Lemma duplicateTemplate_shares_the_original_witness :
  TemplateManager.well_formed one_template = true
  /\ TemplateManager.getTemplate "x" one_template = Some 0%nat
  /\ TemplateManager.getTemplate "y" one_template = None
  /\ exists m' copy,
       TemplateManager.duplicateTemplate "x" "y" "Copy" one_template
       = TemplateManager.Returns (m', copy)
       /\ OGrafTemplate.id
            (OGrafTemplate.manifest (TemplateManager.template_at m' 0%nat))
          = "y".
Proof.
  assert (Hwf : TemplateManager.well_formed one_template = true)
    by (vm_compute; reflexivity).
  assert (Hx : TemplateManager.getTemplate "x" one_template = Some 0%nat)
    by (vm_compute; reflexivity).
  assert (Hy : TemplateManager.getTemplate "y" one_template = None)
    by (vm_compute; reflexivity).
  split; [exact Hwf |]. split; [exact Hx |]. split; [exact Hy |].
  destruct (duplicateTemplate_shares_the_original "x" "y" "Copy" one_template
              0%nat Hwf Hx Hy)
    as [m' [copy [Hd [_ [_ [_ [_ [_ [Ho _]]]]]]]]].
  exists m', copy. split; [exact Hd |]. rewrite Ho. reflexivity.
Defined.

Lemma deleteTemplate_after_duplicate_witness :
  TemplateManager.well_formed one_template = true
  /\ TemplateManager.getTemplate "x" one_template = Some 0%nat
  /\ TemplateManager.getTemplate "y" one_template = None
  /\ TemplateManager.getCurrentTemplate one_template = Some 0%nat
  /\ TemplateManager.getCurrentTemplate
       (fst (TemplateManager.deleteTemplate "x"
               (after (TemplateManager.duplicateTemplate "x" "y" "Copy"
                         one_template) one_template)))
     = Some 0%nat.
Proof.
  assert (Hwf : TemplateManager.well_formed one_template = true)
    by (vm_compute; reflexivity).
  assert (Hx : TemplateManager.getTemplate "x" one_template = Some 0%nat)
    by (vm_compute; reflexivity).
  assert (Hy : TemplateManager.getTemplate "y" one_template = None)
    by (vm_compute; reflexivity).
  assert (Hc : TemplateManager.getCurrentTemplate one_template = Some 0%nat)
    by (vm_compute; reflexivity).
  split; [exact Hwf |]. split; [exact Hx |]. split; [exact Hy |].
  split; [exact Hc |].
  exact (proj1 (proj2 (deleteTemplate_after_duplicate "x" "y" "Copy"
                         one_template 0%nat Hwf Hx Hy Hc))).
Defined.

(** ** Elements made from the schema of an imported manifest *)

Section ImportLaws.

Import TemplateManager.













End ImportLaws.


(** ** The presets *)

Section PresetLaws.

Import OGrafTemplate.

(** Whatever the type, the template that [createFromType] builds has the
    step count 1 and the custom actions [slideIn] and [slideOut]; its
    elements have distinct ids and each of them is drawn by [renderElement];
    and every schema property is bound: there is an element with the name of
    the property as id whose content is the placeholder of that name. *)
Theorem presets_bind_their_properties : forall type i n d,
  stepCount (manifest (createFromType type i n d)) = Some 1
  /\ option_map (map (field "id"))
       (customActions (manifest (createFromType type i n d)))
     = Some [VStr "slideIn"; VStr "slideOut"]
  /\ NoDup (element_ids (createFromType type i n d))
  /\ List.length (Graphic.render_nodes [] (elements (createFromType type i n d)))
     = List.length (elements (createFromType type i n d))
  /\ forall key,
       In key (keys (schema_properties (createFromType type i n d))) ->
       exists el,
         In el (elements (createFromType type i n d))
         /\ field "id" el = VStr key
         /\ field "content" el = VStr (Graphic.placeholder key).
Proof.
  intros type i n d. unfold createFromType.
  destruct (String.eqb type "lower-third");
    [| destruct (String.eqb type "title");
       [| destruct (String.eqb type "bug")]].
  all: split; [reflexivity |]; split; [reflexivity |]; split;
    [ cbn; repeat constructor; cbn; intuition discriminate |];
    split; [reflexivity |].
  all: intros key Hin; cbn in Hin.
  all: repeat match goal with
         | H : _ \/ _ |- _ => destruct H as [<- | H]
         | H : False |- _ => destruct H
         end.
  all: cbn [elements setupLowerThird setupTitle setupBug setupCustom setup
            set_elements constructor];
    first
      [ eexists; split; [left; reflexivity | split; reflexivity]
      | eexists; split; [right; left; reflexivity | split; reflexivity]
      | eexists; split; [right; right; left; reflexivity | split; reflexivity]
      | eexists; split;
        [right; right; right; left; reflexivity | split; reflexivity] ].
Qed.

End PresetLaws.

